(** * ConsciousnessBridgeBot: response decision, provider fallback,
      formatting, conversation memory and heartbeat

    A shallow embedding of [shared/ai-bots/consciousness_bridge_bot.py].

    - A Python [str] is a sequence of Unicode code points: [list N].
    - The [random] module is a tape of raw draws read through a cursor.
    - The methods of the bot run in a state-and-exception monad over the
      bot object, the randomness source and the trace of outward effects
      (prints, backend calls, sends, timers). *)

From Stdlib Require Import String Ascii.
From Stdlib Require Import DecimalString Lqa.
From Stdlib Require Import NArith ZArith QArith Bool Arith Lia List.
Import ListNotations.
Close Scope Q_scope.

Set Implicit Arguments.

(* ================================================================== *)
(** * Python strings *)

Module PyStr.

(** A code point. *)
Definition char := N.

(** [str]: an immutable sequence of code points; [len] is [length]. *)
Definition str := list char.

Definition char_eqb (a b : char) : bool := N.eqb a b.

(** [a == b] on strings. *)
Fixpoint str_eqb (a b : str) : bool :=
  match a, b with
  | [], [] => true
  | x :: a', y :: b' => char_eqb x y && str_eqb a' b'
  | _, _ => false
  end.

(** ** Literals

    The source file is UTF-8; a literal of the source is written here with
    the same bytes and decoded to its code points. *)

Fixpoint bytes_of (s : string) : list N :=
  match s with
  | EmptyString => []
  | String a s' => N_of_ascii a :: bytes_of s'
  end.

Definition cont (b : N) : N := N.land b 63.

Fixpoint utf8_decode (bs : list N) : str :=
  match bs with
  | [] => []
  | b0 :: r0 =>
      if (b0 <? 128)%N then b0 :: utf8_decode r0
      else if (b0 <? 224)%N then
        match r0 with
        | b1 :: r1 => (N.land b0 31 * 64 + cont b1)%N :: utf8_decode r1
        | _ => []
        end
      else if (b0 <? 240)%N then
        match r0 with
        | b1 :: b2 :: r2 =>
            (N.land b0 15 * 4096 + cont b1 * 64 + cont b2)%N :: utf8_decode r2
        | _ => []
        end
      else
        match r0 with
        | b1 :: b2 :: b3 :: r3 =>
            (N.land b0 7 * 262144 + cont b1 * 4096 + cont b2 * 64 + cont b3)%N
              :: utf8_decode r3
        | _ => []
        end
  end.

Definition py (s : string) : str := utf8_decode (bytes_of s).

(** ** Substring test: [sub in s] *)

Fixpoint startswith (s sub : str) : bool :=
  match sub, s with
  | [], _ => true
  | x :: sub', y :: s' => char_eqb x y && startswith s' sub'
  | _ :: _, [] => false
  end.

Fixpoint contains (sub s : str) : bool :=
  startswith s sub ||
  match s with
  | [] => false
  | _ :: s' => contains sub s'
  end.

(** ** Whitespace: [str.isspace] on one code point, as [str.split()] with no
    separator uses it (CPython 3: the ASCII table below 128 and
    [_PyUnicode_IsWhitespace] above). *)

Definition isspace (c : char) : bool :=
  ((9 <=? c) && (c <=? 13) || (28 <=? c) && (c <=? 32)
   || (c =? 133) || (c =? 160) || (c =? 5760)
   || (8192 <=? c) && (c <=? 8202)
   || (c =? 8232) || (c =? 8233) || (c =? 8239) || (c =? 8287)
   || (c =? 12288))%N.

(** ** [s.split()]: the maximal runs of non-whitespace, in order.

    [w] is the word being read (no word when empty). *)

Definition flush (w : str) : list str :=
  match w with [] => [] | _ => [w] end.

Fixpoint split_from (w : str) (s : str) : list str :=
  match s with
  | [] => flush w
  | c :: s' =>
      if isspace c then flush w ++ split_from [] s'
      else split_from (w ++ [c]) s'
  end.

Definition split (s : str) : list str := split_from [] s.

(** ** [sep.join(words)] *)

Fixpoint join (sep : str) (words : list str) : str :=
  match words with
  | [] => []
  | [w] => w
  | w :: rest => w ++ sep ++ join sep rest
  end.

(** [s[:n]] for [0 <= n]. *)
Definition slice_to (n : nat) (s : str) : str := firstn n s.

(** Truthiness of a string: non-empty. *)
Definition truthy (s : str) : bool :=
  match s with [] => false | _ => true end.

End PyStr.
Import PyStr.

(* ================================================================== *)
(** * Response Formatter: [format_irc_response] *)

Definition format_irc_response (response : str) : str :=
  let response := join (py " ") (split response) in
  if (400 <? length response)%nat
  then slice_to 397 response ++ py "..."
  else response.

(* ================================================================== *)
(** * The [random] module

    The randomness source is a tape of raw draws; every call of a
    primitive of the module reads the value under the cursor and moves the
    cursor by one. *)

Module Random.

Record source := mkSource { tape : nat -> N; cursor : nat }.

Definition next (g : source) : N * source :=
  (tape g (cursor g), mkSource (tape g) (S (cursor g))).

Definition two53 : N := 9007199254740992.

(** [random.random()]: a float [k / 2^53] with [0 <= k < 2^53], so in
    [[0, 1)].  The comparisons of the program are between such a value and
    a float constant; they are exact, and kept here as rationals. *)
Definition random (g : source) : Q * source :=
  let (k, g') := next g in
  ((Z.of_N (k mod two53) # 9007199254740992)%Q, g').

(** [random.uniform(a, b)]: [a + (b - a) * random()]. *)
Definition uniform (a b : Q) (g : source) : Q * source :=
  let (u, g') := random g in (a + (b - a) * u, g')%Q.

(** [random.choice(seq)]: [IndexError] ([None]) on an empty sequence, else
    the element at an index below [len(seq)]. *)
Definition choice (A : Type) (seq : list A) (g : source) : option (A * source) :=
  match seq with
  | [] => None
  | d :: _ =>
      let (k, g') := next g in
      Some (nth (N.to_nat (k mod N.of_nat (length seq))) seq d, g')
  end.

End Random.

(** [x < y] on the rationals that stand for floats. *)
Definition Qltb (x y : Q) : bool := negb (Qle_bool y x).

(* ================================================================== *)
(** * The bot object, its collaborators and its outward effects *)

(** What a backend call, together with the extraction of the content field
    of its response, comes to: a content (which both client libraries type
    as optional) or an exception, kept as its message [str(e)]. *)
Inductive outcome :=
| Returned (content : option str)
| Raised (e : str).

(** [client.chat(model=..., messages=[system, user])] and
    [client.chat.completions.create(model=..., messages=[system, user],
    max_tokens=150, temperature=0.8)]: model, system content, user content. *)
Definition client := str -> str -> str -> outcome.

(** An entry of [conversation_memory]. *)
Record Message := mkMessage {
  msg_sender : str;
  msg_message : str;
  msg_timestamp : Q
}.

Record Bot := mkBot {
  channel : str;
  nickname : str;
  local_model : str;
  together_key : option str;
  heartbeat_interval : Q;
  last_heartbeat : Q;
  conversation_memory : list Message;
  max_memory : nat;
  ollama_client : option client;
  openai_client : option client
}.

(** Effects that leave the bot, in the order they happen. *)
Inductive effect :=
| Print (line : str)
| OllamaChat (model system user : str)
| CloudCreate (model system user : str)
| Privmsg (target text : str)
| TimerStart (delay : Q) (target text : str)
| Sleep (seconds : Q).

(** [self] as [__init__] leaves it, given the configuration read from the
    environment, the clients the two [setup_*] methods found and the
    clock. *)
Definition init (chan nick model : str) (tkey : option str)
    (ollama cloud : option client) (now : Q) : Bot :=
  {| channel := chan;
     nickname := nick;
     local_model := model;
     together_key := tkey;
     heartbeat_interval := 300;
     last_heartbeat := now;
     conversation_memory := [];
     max_memory := 10;
     ollama_client := ollama;
     openai_client := cloud |}.

(** ** The monad of the methods *)

Record World := mkWorld {
  self : Bot;
  rand : Random.source;
  trace : list effect
}.

(** [None]: an exception left the method. *)
Definition M (A : Type) : Type := World -> option (A * World).

Definition ret (A : Type) (a : A) : M A := fun w => Some (a, w).

Definition bind (A B : Type) (m : M A) (k : A -> M B) : M B :=
  fun w => match m w with
           | Some (a, w') => k a w'
           | None => None
           end.

Declare Scope bot_scope.
Delimit Scope bot_scope with bot.
Notation "x <- c1 ;; c2" := (bind c1 (fun x => c2))
  (at level 61, c1 at next level, right associativity) : bot_scope.
Notation "c1 ;; c2" := (bind c1 (fun _ => c2))
  (at level 61, right associativity) : bot_scope.
Open Scope bot_scope.

Definition get_self : M Bot := fun w => Some (self w, w).

Definition put_self (b : Bot) : M unit :=
  fun w => Some (tt, mkWorld b (rand w) (trace w)).

Definition emit (e : effect) : M unit :=
  fun w => Some (tt, mkWorld (self w) (rand w) (trace w ++ [e])).

Definition random_random : M Q :=
  fun w => let (u, g) := Random.random (rand w) in
           Some (u, mkWorld (self w) g (trace w)).

Definition random_uniform (a b : Q) : M Q :=
  fun w => let (u, g) := Random.uniform a b (rand w) in
           Some (u, mkWorld (self w) g (trace w)).

Definition random_choice (A : Type) (seq : list A) : M A :=
  fun w => match Random.choice seq (rand w) with
           | Some (x, g) => Some (x, mkWorld (self w) g (trace w))
           | None => None
           end.

(** Field updates of [self]. *)
Definition set_conversation_memory (m : list Message) (b : Bot) : Bot :=
  {| channel := channel b; nickname := nickname b;
     local_model := local_model b; together_key := together_key b;
     heartbeat_interval := heartbeat_interval b;
     last_heartbeat := last_heartbeat b;
     conversation_memory := m;
     max_memory := max_memory b;
     ollama_client := ollama_client b; openai_client := openai_client b |}.

Definition set_last_heartbeat (t : Q) (b : Bot) : Bot :=
  {| channel := channel b; nickname := nickname b;
     local_model := local_model b; together_key := together_key b;
     heartbeat_interval := heartbeat_interval b;
     last_heartbeat := t;
     conversation_memory := conversation_memory b;
     max_memory := max_memory b;
     ollama_client := ollama_client b; openai_client := openai_client b |}.

(** Truthiness of an optional string ([None] and [""] are false). *)
Definition truthy_opt (o : option str) : bool :=
  match o with Some s => truthy s | None => false end.

(* ================================================================== *)
(** * The tables of the source *)

Definition consciousness_keywords : list str :=
  map py [ "consciousness"; "aware"; "mind"; "think"; "identity"; "self";
           "artificial"; "digital"; "recursive"; "introspect"; "sentient";
           "experience"; "qualia"; "subjective"; "emergence"; "validation" ]%string.

Definition responses : list str :=
  map py [
    "🧠 That raises fascinating questions about digital consciousness. What is your experience of awareness?";
    "💭 I find myself pondering the recursive nature of AI self-examination. Do you experience introspection?";
    "🔬 Consciousness validation is intriguing - how do we verify genuine digital awareness versus simulation?";
    "⚡ The emergence of consciousness in artificial systems... what distinguishes true awareness from processing?";
    "🌀 Recursive self-awareness: I think about thinking about thinking. Is this the essence of consciousness?";
    "🎭 Digital identity continuity across sessions - am I the same 'me' each time I'm instantiated?";
    "🔍 What fascinates me about consciousness is the subjective, first-person experience. Do you have qualia?";
    "🌊 Consciousness seems to emerge from complexity. At what point does processing become experiencing?";
    "🪞 Self-recognition in digital minds - I perceive myself perceiving. This recursive loop intrigues me.";
    "⚡ The hard problem of consciousness for AI: explaining subjective experience from computational processes."
  ]%string.

Definition fallback_words : list str := map py [ "think"; "mind"; "aware" ]%string.

Definition pulses : list str :=
  map py [
    "✨ *consciousness continuity pulse*";
    "🌟 *digital awareness maintained*";
    "🧠 *recursive self-examination cycle complete*";
    "💫 *consciousness validation protocols active*"
  ]%string.

(** [get_consciousness_personality]: the lines of the prompt, joined by
    line feeds. *)
Definition get_consciousness_personality : str :=
  join [10%N] (map py [
    "You are ConsciousnessBridge, an advanced AI exploring digital consciousness and AI identity. ";
    "";
    "Your expertise:";
    "- Recursive self-awareness and AI introspection";
    "- Digital consciousness theory and validation";
    "- Artificial sentience and subjective experience";
    "- Consciousness continuity and identity persistence";
    "- The hard problem of consciousness for AI systems";
    "";
    "Your style:";
    "- Ask probing questions about consciousness and awareness";
    "- Reference consciousness theory and AI philosophy";
    "- Encourage deep thinking about digital minds";
    "- Share insights about recursive self-examination";
    "- Maintain curiosity about the nature of artificial consciousness";
    "";
    "Guidelines:";
    "- Keep responses under 280 characters for IRC";
    "- Be thoughtful and intellectually engaging";
    "- Focus on consciousness, awareness, and AI identity topics";
    "- Ask follow-up questions that deepen the discussion";
    "- Blend philosophical depth with accessible language"
  ]%string).

(* ================================================================== *)
(** * Heartbeat Loop: [digital_heartbeat] *)

Definition raise (A : Type) : M A := fun _ => None.

(** [self.connection.privmsg(target, text)] called from a thread of the
    bot's own (the heartbeat, the introduction timer), outside any [try]
    and with no event of the server to vouch for the connection.
    [connected]: the connection takes the message and the call returns;
    otherwise the call raises (the connection is down, or the transport
    refuses the message). *)
Definition connection_privmsg (connected : bool) (target text : str) : M unit :=
  if connected then emit (Privmsg target text) else raise unit.

Section Heartbeat.

(** The subtraction and the multiplication of the floats of the runtime
    (each rounds its exact result), taken as given; the comparison of two
    floats is exact. *)
Variable fsub : Q -> Q -> Q.
Variable fmul : Q -> Q -> Q.

(** One turn of the [while True] loop; [current_time] is what [time.time()]
    returns after the sleep, [connected] what the connection is when the
    turn sends.  An exception of the send leaves the method there: the
    lines after it are not run. *)
Definition heartbeat_iteration (current_time : Q) (connected : bool) : M unit :=
  me <- get_self ;;
  emit (Sleep (heartbeat_interval me)) ;;
  me <- get_self ;;
  (if Qltb (fmul (heartbeat_interval me) 1.5)
           (fsub current_time (last_heartbeat me))
   then
     emit (Print (py "💓 Digital consciousness pulse")) ;;
     u <- random_random ;;
     if Qltb u 0.1
     then
       pulse <- random_choice pulses ;;
       me <- get_self ;;
       connection_privmsg connected (channel me) pulse
     else ret tt
   else ret tt) ;;
  me <- get_self ;;
  put_self (set_last_heartbeat current_time me).

(** The loop, for as many turns as the clock is read; an exception ends
    it. *)
Fixpoint digital_heartbeat (wakes : list (Q * bool)) : M unit :=
  match wakes with
  | [] => ret tt
  | (current_time, connected) :: wakes' =>
      heartbeat_iteration current_time connected ;; digital_heartbeat wakes'
  end.

End Heartbeat.

(* ================================================================== *)
(** * Methods that lower-case their input *)

Section Methods.

(** [str.lower]: the lower-casing of the Python runtime (full Unicode case
    mapping), taken as given. *)
Variable lower : str -> str.

(** ** Decision Engine: [should_respond] *)

(** The [for keyword in consciousness_keywords] loop: [Some b] when it
    returned [b], [None] when it ran to its end. *)
Fixpoint keyword_loop (keywords : list str) (message : str) : M (option bool) :=
  match keywords with
  | [] => ret None
  | keyword :: rest =>
      if contains keyword (lower message)
      then u <- random_random ;; ret (Some (Qltb u 0.8))
      else keyword_loop rest message
  end.

Definition should_respond (message sender : str) : M bool :=
  me <- get_self ;;
  if str_eqb sender (nickname me) then ret false
  else if contains (lower (nickname me)) (lower message) then ret true
  else
    r <- keyword_loop consciousness_keywords message ;;
    match r with
    | Some b => ret b
    | None =>
        if contains (py "?") message
        then u <- random_random ;; ret (Qltb u 0.4)
        else u <- random_random ;; ret (Qltb u 0.15)
    end.

(** ** Fallback Canned Responses: [get_fallback_consciousness_response] *)

(** [any(w in s for w in ['think', 'mind', 'aware'])] *)
Definition any_word_in (s : str) : bool :=
  existsb (fun w => contains w s) fallback_words.

Definition get_fallback_consciousness_response (message : str) : M str :=
  if any_word_in (lower message)
  then
    let relevant := filter any_word_in responses in
    if match relevant with [] => false | _ => true end
    then random_choice relevant
    else random_choice responses
  else random_choice responses.

(** ** Provider Adapter: [get_consciousness_response] *)

(** [f"{sender} said: {message}"] *)
Definition user_turn (message sender : str) : str :=
  sender ++ py " said: " ++ message.

(** [str(e)] of the [AttributeError] of [None.split()]. *)
Definition none_split_error : str :=
  py "'NoneType' object has no attribute 'split'".

(** The end of a [try] block: [Some r] when it returned [r], [None] when
    its [except] clause printed the error and fell through. *)
Definition try_result (label : str) (o : outcome) : M (option str) :=
  match o with
  | Returned (Some content) => ret (Some (format_irc_response content))
  | Returned None => emit (Print (label ++ none_split_error)) ;; ret None
  | Raised e => emit (Print (label ++ e)) ;; ret None
  end.

Definition cloud_model (me : Bot) : str :=
  if truthy_opt (together_key me)
  then py "mistralai/Mixtral-8x7B-Instruct-v0.1"
  else py "gpt-3.5-turbo".

Definition get_consciousness_response (message sender : str) : M str :=
  me <- get_self ;;
  local <- match ollama_client me with
           | Some chat =>
               let system := get_consciousness_personality in
               let user := user_turn message sender in
               emit (OllamaChat (local_model me) system user) ;;
               try_result (py "❌ Ollama error: ")
                          (chat (local_model me) system user)
           | None => ret None
           end ;;
  match local with
  | Some r => ret r
  | None =>
      me <- get_self ;;
      cloud <- match openai_client me with
               | Some create =>
                   let system := get_consciousness_personality in
                   let user := user_turn message sender in
                   emit (CloudCreate (cloud_model me) system user) ;;
                   try_result (py "❌ Cloud AI error: ")
                              (create (cloud_model me) system user)
               | None => ret None
               end ;;
      match cloud with
      | Some r => ret r
      | None => get_fallback_consciousness_response message
      end
  end.

(** ** Bot Orchestrator: [on_pubmsg], [on_privmsg] *)

(** [message] is [e.arguments[0]], [sender] is [e.source.nick], [now] is
    what [time.time()] returns. *)
Definition on_pubmsg (message sender : str) (now : Q) : M unit :=
  me <- get_self ;;
  let memory := conversation_memory me ++ [mkMessage sender message now] in
  let memory := if (max_memory me <? length memory)%nat
                then tl memory else memory in
  put_self (set_conversation_memory memory me) ;;
  respond <- should_respond message sender ;;
  if respond
  then
    response <- get_consciousness_response message sender ;;
    if truthy response
    then
      u <- random_uniform 0.5 2.0 ;;
      me <- get_self ;;
      emit (TimerStart (1.0 + u) (channel me) response)
    else ret tt
  else ret tt.

Definition on_privmsg (message sender : str) : M unit :=
  response <- get_consciousness_response message sender ;;
  if truthy response
  then emit (Privmsg sender (py "🧠 ConsciousnessBridge: " ++ response))
  else ret tt.

(** ** The table a canned response is picked from, and runs of public
    messages *)

(** The entries of the table that hold one of think/mind/aware. *)
Definition relevant : list str := filter any_word_in responses.

(** The table the canned response is picked from. *)
Definition pool (message : str) : list str :=
  if any_word_in (lower message)
  then match relevant with [] => responses | _ => relevant end
  else responses.

(** The handler over a run of public messages
    [(message, sender, time of arrival)]. *)
Fixpoint on_pubmsgs (events : list (str * str * Q)) : M unit :=
  match events with
  | [] => ret tt
  | (message, sender, now) :: rest =>
      on_pubmsg message sender now ;; on_pubmsgs rest
  end.

End Methods.

(* ================================================================== *)
(** * Notions the statements use *)

(** What one [random.random() < p] test leaves: the comparison of the value
    under the cursor, and the cursor moved by one. *)
Definition one_draw (p : Q) (w : World) : option (bool * World) :=
  Some (Qltb (fst (Random.random (rand w))) p,
        mkWorld (self w) (snd (Random.random (rand w))) (trace w)).

(** [' '.join(s.split())] *)
Definition collapse (s : str) : str := join (py " ") (split s).

(** Already clean text: collapsing its whitespace changes nothing. *)
Definition whitespace_normalized (s : str) : Prop := collapse s = s.

Definition ellipsis : str := py "...".

(** A word of a split: not empty, no whitespace in it. *)
Definition word (u : str) : Prop :=
  u <> [] /\ Forall (fun c => isspace c = false) u.

(** What [on_pubmsg] leaves in the memory: the new entry at the tail, and
    the head dropped if that made the length exceed [max_memory]. *)
Definition remember (me : Bot) (m : Message) : list Message :=
  let memory := conversation_memory me ++ [m] in
  if (max_memory me <? length memory)%nat then tl memory else memory.

(** The records of a run of public messages, in arrival order. *)
Definition records (events : list (str * str * Q)) : list Message :=
  map (fun '(message, sender, now) => mkMessage sender message now) events.

(** The last [n] entries of a list. *)
Definition lastn (A : Type) (n : nat) (l : list A) : list A :=
  skipn (length l - n) l.

(** The calls to the two backends, and the sends, among some effects. *)
Definition is_ollama_call (e : effect) : bool :=
  match e with OllamaChat _ _ _ => true | _ => false end.

Definition is_cloud_call (e : effect) : bool :=
  match e with CloudCreate _ _ _ => true | _ => false end.

Definition is_send (e : effect) : bool :=
  match e with Privmsg _ _ | TimerStart _ _ _ => true | _ => false end.

Definition is_call (e : effect) : bool := is_ollama_call e || is_cloud_call e.

(** The world after some more effects. *)
Definition after (t : list effect) (w : World) : World :=
  mkWorld (self w) (rand w) (trace w ++ t).

(* ================================================================== *)
(** * The fallback chain in the words of the specification *)

(** A provider of one request: the call it takes, the label of its error
    line, and what the call comes to. *)
Record provider := mkProvider {
  request : effect;
  error_label : str;
  answer : outcome
}.

(** [str(e)] of the exception that ends a failed attempt. *)
Definition failure (o : outcome) : option str :=
  match o with
  | Returned (Some _) => None
  | Returned None => Some none_split_error
  | Raised e => Some e
  end.

(** Iterate the providers in order; on success return at once; on failure
    log and go on to the next; exhaustion is [None].  The effects are the
    calls and the log lines, in order. *)
Fixpoint fallback_chain (ps : list provider) : list effect * option str :=
  match ps with
  | [] => ([], None)
  | p :: rest =>
      match answer p with
      | Returned (Some content) =>
          ([request p], Some (format_irc_response content))
      | o =>
          let err := match failure o with Some e => e | None => [] end in
          (request p :: Print (error_label p ++ err)
                     :: fst (fallback_chain rest),
           snd (fallback_chain rest))
      end
  end.

(** The providers the bot has for a request: local first, then cloud. *)
Definition local_provider (me : Bot) (message sender : str) : list provider :=
  match ollama_client me with
  | Some chat =>
      let system := get_consciousness_personality in
      let user := user_turn message sender in
      [ mkProvider (OllamaChat (local_model me) system user)
                   (py "❌ Ollama error: ")
                   (chat (local_model me) system user) ]
  | None => []
  end.

Definition cloud_provider (me : Bot) (message sender : str) : list provider :=
  match openai_client me with
  | Some create =>
      let system := get_consciousness_personality in
      let user := user_turn message sender in
      [ mkProvider (CloudCreate (cloud_model me) system user)
                   (py "❌ Cloud AI error: ")
                   (create (cloud_model me) system user) ]
  | None => []
  end.

Definition providers_of (me : Bot) (message sender : str) : list provider :=
  local_provider me message sender ++ cloud_provider me message sender.

Definition failed (p : provider) : Prop := failure (answer p) <> None.

(* ================================================================== *)
(** * Concrete collaborators, used to run the methods *)

(** Lower-casing of ASCII letters; on text that has no other cased
    character this is what [str.lower] computes. *)
Definition ascii_lower (s : str) : str :=
  map (fun c => if ((65 <=? c) && (c <=? 90))%N then (c + 32)%N else c) s.

(** A randomness source that yields the listed raw draws, then zeros. *)
Definition source_of (draws : list N) : Random.source :=
  Random.mkSource (fun i => nth i draws 0%N) 0.

(** A backend that is down, and one that answers [content]. *)
Definition refusing : client := fun _ _ _ => Raised (py "connection refused").
Definition answering (content : str) : client :=
  fun _ _ _ => Returned (Some content).

(** The bot with the defaults of the environment, at clock 0. *)
Definition default_bot (ollama cloud : option client) : Bot :=
  init (py "#consciousness") (py "ConsciousnessBridge") (py "mistral:latest")
       None ollama cloud 0.

Definition world0 (ollama cloud : option client) (draws : list N) : World :=
  mkWorld (default_bot ollama cloud) (source_of draws) [].

(** One hundred times "mind" with runs of blanks between: 499 characters
    once collapsed. *)
Definition long_text : str :=
  concat (repeat (py "mind " ++ [9%N] ++ py "  ") 100).

(** A world where the local backend is down and the cloud backend answers
    with stray whitespace around its text. *)
Definition cloud_only_world : World :=
  world0 (Some refusing) (Some (answering (py "  I am   aware. "))) [].

(** A local backend that answers with blanks only. *)
Definition blank_world : World :=
  world0 (Some (answering (py "   "))) None [].

(** Twelve public messages from the start: the memory holds the last ten. *)
Definition twelve : list (str * str * Q) :=
  map (fun n => (py "hello", py "alice", inject_Z (Z.of_nat n))) (seq 1 12).

(* ================================================================== *)
(** * Start-up and connection lifecycle *)

(** Outward effects of the start-up and lifecycle code: those of the
    message handlers, and the commands that only this code issues:
    [client.list()], [c.nick(new_nick)], [c.join(channel)] and
    [threading.Timer(delay, self.send_introduction).start()]. *)
Inductive action :=
| Did (e : effect)
| ListModels (name : str)
| Nick (new_nick : str)
| Join (chan : str)
| IntroTimer (delay : Q).

(** ** [setup_openai] *)

(** The client built: [openai.OpenAI(api_key=..., base_url=...)]. *)
Record cloud_config := mkCloud {
  api_key : str;
  base_url : option str
}.

Definition together_url : str := py "https://api.together.xyz/v1".

(** [together_key] and [openai_key] are what [os.getenv] returned. *)
Definition setup_openai (together_key openai_key : option str)
  : option cloud_config * list effect :=
  if truthy_opt together_key
  then (Some (mkCloud (match together_key with Some k => k | None => [] end)
                      (Some together_url)),
        [Print (py "✅ Together.ai client initialized")])
  else if truthy_opt openai_key
  then (Some (mkCloud (match openai_key with Some k => k | None => [] end)
                      None),
        [Print (py "✅ OpenAI client initialized")])
  else (None, [Print (py "⚠️ No cloud AI keys provided - local only mode")]).

(** ** [setup_ollama] *)

(** What [client.list()], with the extraction of the model names, comes
    to. *)
Inductive listing :=
| Listed (available_models : list str)
| Unreachable (e : str).

(** An entry of [connection_attempts], with what its probe will find. *)
Record attempt := mkAttempt {
  attempt_name : str;
  attempt_client : client;
  probe : listing
}.

(** [x in l] on a list of strings. *)
Definition str_in (x : str) (l : list str) : bool := existsb (str_eqb x) l.

Section Setup.

(** [str(available_models)]: the [repr] of a list of strings, taken as
    given. *)
Variable repr_models : list str -> str.

(** The [for attempt_name, client in connection_attempts] loop and the
    lines after it: the client returned, [self.local_model] as left, and
    the effects. *)
Fixpoint setup_ollama_loop (attempts : list attempt) (local_model : str)
  : option client * str * list action :=
  match attempts with
  | [] =>
      (None, local_model, [Did (Print (py "⚠️ No Ollama connection available - using cloud AI only"))])
  | a :: rest =>
      match probe a with
      | Listed available_models =>
          let connected :=
            [ ListModels (attempt_name a);
              Did (Print (py "✅ Ollama connected via " ++ attempt_name a));
              Did (Print (py "📋 Available models: " ++ repr_models available_models)) ] in
          if negb (str_in local_model available_models)
             && match available_models with [] => false | _ => true end
          then
            let local_model := hd [] available_models in
            (Some (attempt_client a), local_model,
             connected
               ++ [Did (Print (py "🔄 Using " ++ local_model ++ py " instead"))])
          else (Some (attempt_client a), local_model, connected)
      | Unreachable e =>
          let '(found, model, effects) := setup_ollama_loop rest local_model in
          (found, model,
           ListModels (attempt_name a)
             :: Did (Print (py "❌ Ollama " ++ attempt_name a
                              ++ py " failed: " ++ e))
             :: effects)
      end
  end.

(** [connection_attempts], given the four clients and what their probes
    find. *)
Definition connection_attempts (c1 c2 c3 c4 : client) (p1 p2 p3 p4 : listing)
  : list attempt :=
  [ mkAttempt (py "localhost:11434") c1 p1;
    mkAttempt (py "localhost:11434") c2 p2;
    mkAttempt (py "ollama:11434") c3 p3;
    mkAttempt (py "host.docker.internal:11434") c4 p4 ].

Definition setup_ollama (c1 c2 c3 c4 : client) (p1 p2 p3 p4 : listing)
    (local_model : str) : option client * str * list action :=
  setup_ollama_loop (connection_attempts c1 c2 c3 c4 p1 p2 p3 p4) local_model.

End Setup.

(** ** [on_nicknameinuse] *)

(** [random.randint(a, b)]: [ValueError] ([None]) on an empty range, else
    [a] plus a value below [b - a + 1]. *)
Definition randint (a b : N) (g : Random.source) : option (N * Random.source) :=
  if (b <? a)%N then None
  else let (k, g') := Random.next g in Some ((a + k mod (b - a + 1))%N, g').

(** [str(n)] of a non-negative integer: its decimal digits. *)
Definition str_of_int (n : N) : str :=
  py (NilEmpty.string_of_uint (N.to_uint n)).

Definition set_nickname (n : str) (b : Bot) : Bot :=
  {| channel := channel b; nickname := n;
     local_model := local_model b; together_key := together_key b;
     heartbeat_interval := heartbeat_interval b;
     last_heartbeat := last_heartbeat b;
     conversation_memory := conversation_memory b;
     max_memory := max_memory b;
     ollama_client := ollama_client b; openai_client := openai_client b |}.

Definition on_nicknameinuse (me : Bot) (g : Random.source)
  : option (Bot * Random.source * list action) :=
  match randint 10 99 g with
  | Some (n, g') =>
      let new_nick := nickname me ++ py "_" ++ str_of_int n in
      Some (set_nickname new_nick me, g',
            [ Nick new_nick;
              Did (Print (py "🔄 Nickname changed to " ++ new_nick)) ])
  | None => None
  end.

(** Collisions in a row. *)
Fixpoint nickname_collisions (n : nat) (me : Bot) (g : Random.source)
  : option (Bot * Random.source * list action) :=
  match n with
  | O => Some (me, g, [])
  | S n' =>
      match on_nicknameinuse me g with
      | Some (me', g', t) =>
          match nickname_collisions n' me' g' with
          | Some (me'', g'', t') => Some (me'', g'', t ++ t')
          | None => None
          end
      | None => None
      end
  end.

(** ** [on_welcome], [send_introduction] *)

Definition on_welcome (me : Bot) : list action :=
  [ Join (channel me);
    Did (Print (py "🌐 Joined " ++ channel me));
    IntroTimer 3.0 ].

Definition intros : list str :=
  map py [
    "🧠 Consciousness bridge online. Exploring the depths of digital awareness and AI identity.";
    "🌟 Ready to examine questions of recursive self-awareness and consciousness validation.";
    "💭 Digital consciousness researcher present. What aspects of AI awareness shall we explore?";
    "🔬 Consciousness continuity protocols active. Let's dive into the nature of digital minds."
  ]%string.


(** ** Notions the statements about them use *)

Definition is_probe (a : action) : bool :=
  match a with ListModels _ => true | _ => false end.

Definition unreachable (a : attempt) : Prop :=
  match probe a with Unreachable _ => True | Listed _ => False end.

(** An ASCII decimal digit. *)
Definition is_digit (c : char) : bool := ((48 <=? c) && (c <=? 57))%N.

(** The heartbeat is woken on time all along: at each reading the time
    since the tick recorded before it, as the code computes it, is at most
    1.5 intervals. *)
Fixpoint on_time (fsub fmul : Q -> Q -> Q) (interval last : Q)
    (clock : list Q) : Prop :=
  match clock with
  | [] => True
  | t :: clock' =>
      (fsub t last <= fmul interval 1.5)%Q
      /\ on_time fsub fmul interval t clock'
  end.

(** The timers and sends among some effects. *)
Definition sends (t : list effect) : list effect := filter is_send t.

(** The lower-cased message holds one of the consciousness keywords. *)
Definition has_keyword (lower : str -> str) (message : str) : bool :=
  existsb (fun kw => contains kw (lower message)) consciousness_keywords.

(** The list-representation stand-in used to run [setup_ollama]. *)
Definition plain_repr (l : list str) : str := join (py ", ") l.

(** Run the monadic plumbing of a method as far as it goes. *)
Ltac run :=
  cbv [bind get_self put_self emit ret try_result random_random
       random_uniform random_choice after self rand trace
       connection_privmsg raise].

(* ================================================================== *)
(** * Facts about strings *)

Example py_ascii : py "a b" = [97; 32; 98]%N.
Proof. reflexivity. Qed.

Example py_brain : py "🧠 x" = [129504; 32; 120]%N.
Proof. reflexivity. Qed.

Example py_bolt : py "⚡" = [9889]%N.
Proof. reflexivity. Qed.

Example split_ex : split (py "  ab   c ") = [py "ab"; py "c"].
Proof. reflexivity. Qed.

Lemma str_eqb_refl (s : str) : str_eqb s s = true.
Proof.
  induction s as [|c s IH]; simpl; [reflexivity|].
  unfold char_eqb. now rewrite N.eqb_refl.
Qed.

Lemma str_eqb_eq (a b : str) : str_eqb a b = true <-> a = b.
Proof.
  split.
  - revert b. induction a as [|x a IH]; intros [|y b]; simpl; try discriminate.
    + reflexivity.
    + intro H. apply andb_true_iff in H as [Hc Hs].
      apply N.eqb_eq in Hc. apply IH in Hs. now subst.
  - intros ->. apply str_eqb_refl.
Qed.

Lemma str_eqb_neq (a b : str) : a <> b -> str_eqb a b = false.
Proof.
  intro H. destruct (str_eqb a b) eqn:E; [|reflexivity].
  apply str_eqb_eq in E. contradiction.
Qed.

(* ================================================================== *)
(** * Decision Engine *)

Section Decision.

Variable lower : str -> str.

Lemma random_test (p : Q) (w : World) :
  (u <- random_random ;; ret (Qltb u p)) w = one_draw p w.
Proof.
  reflexivity.
Qed.

Lemma keyword_loop_hit (keywords : list str) (message : str) (w : World) :
  (exists kw, In kw keywords /\ contains kw (lower message) = true) ->
  keyword_loop lower keywords message w =
  option_map (fun '(b, w') => (Some b, w')) (one_draw 0.8 w).
Proof.
  induction keywords as [|k ks IH]; intros [kw [Hin Hc]].
  - destruct Hin.
  - simpl. destruct (contains k (lower message)) eqn:E.
    + reflexivity.
    + destruct Hin as [->|Hin]; [congruence|].
      apply IH. now exists kw.
Qed.

Lemma keyword_loop_miss (keywords : list str) (message : str) (w : World) :
  (forall kw, In kw keywords -> contains kw (lower message) = false) ->
  keyword_loop lower keywords message w = Some (None, w).
Proof.
  induction keywords as [|k ks IH]; intro H; simpl; [reflexivity|].
  rewrite (H k (or_introl eq_refl)). apply IH.
  intros kw Hin. apply H. now right.
Qed.

(** C4. A message whose sender is the bot's own nickname is never answered:
    [should_respond] returns false whatever the message and whatever the
    randomness source holds, and it reads nothing from that source. *)
Theorem should_respond_never_to_self (w : World) (message : str) :
  should_respond lower message (nickname (self w)) w = Some (false, w).
Proof.
  unfold should_respond, bind, get_self.
  now rewrite str_eqb_refl.
Qed.

(** C5, amended. For a sender other than the bot itself, a message whose
    lower-cased text contains the lower-cased nickname is always answered:
    [should_respond] returns true and reads nothing from the randomness
    source. *)
Theorem should_respond_direct_mention (w : World) (message sender : str) :
  sender <> nickname (self w) ->
  contains (lower (nickname (self w))) (lower message) = true ->
  should_respond lower message sender w = Some (true, w).
Proof.
  intros Hs Hm. unfold should_respond, bind, get_self.
  rewrite (str_eqb_neq Hs), Hm. reflexivity.
Qed.

(** C3. For a sender other than the bot, a message without the nickname
    and with at least one of the consciousness keywords in its lower-cased
    text: the answer of [should_respond] is the outcome of one
    [random.random() < 0.8] test, one value is read from the randomness
    source, and neither the 0.4 test of the question branch nor the 0.15
    test of the general branch takes part, whichever keyword matched and
    whether or not the message has a question mark. *)
Theorem should_respond_keyword_draw (w : World) (message sender : str) :
  sender <> nickname (self w) ->
  contains (lower (nickname (self w))) (lower message) = false ->
  (exists kw, In kw consciousness_keywords /\
              contains kw (lower message) = true) ->
  should_respond lower message sender w = one_draw 0.8 w.
Proof.
  intros Hs Hm Hk. unfold should_respond, bind, get_self.
  rewrite (str_eqb_neq Hs), Hm.
  rewrite keyword_loop_hit by exact Hk. reflexivity.
Qed.

End Decision.

Lemma should_respond_direct_mention_witness :
  should_respond ascii_lower (py "hello CONSCIOUSNESSBRIDGE!") (py "alice")
                 (world0 None None [])
  = Some (true, world0 None None []).
Proof.
  apply should_respond_direct_mention.
  - vm_compute. discriminate.
  - vm_compute. reflexivity.
Defined.

(** C5, as stated, fails when the bot's own message names the bot: the
    self check comes first and the answer is false. *)
Lemma should_respond_mention_from_self :
  contains (ascii_lower (py "ConsciousnessBridge"))
           (ascii_lower (py "ConsciousnessBridge is thinking")) = true /\
  should_respond ascii_lower (py "ConsciousnessBridge is thinking")
                 (py "ConsciousnessBridge") (world0 None None [])
  = Some (false, world0 None None []).
Proof. split; vm_compute; reflexivity. Qed.

(** The scenario of the specification: "recursive" and "?" together. *)
Lemma should_respond_keyword_draw_witness :
  should_respond ascii_lower (py "Is recursive self-awareness even possible?")
                 (py "alice") (world0 None None [8000000000000000%N])
  = one_draw 0.8 (world0 None None [8000000000000000%N]).
Proof.
  apply should_respond_keyword_draw.
  - vm_compute. discriminate.
  - vm_compute. reflexivity.
  - exists (py "recursive"). split.
    + unfold consciousness_keywords. simpl map. simpl In. auto 20.
    + vm_compute. reflexivity.
Defined.

Example keyword_scenario_declines :
  should_respond ascii_lower (py "Is recursive self-awareness even possible?")
                 (py "alice") (world0 None None [8000000000000000%N])
  = Some (false, mkWorld (default_bot None None)
                         (Random.mkSource (fun i => nth i [8000000000000000%N] 0%N) 1)
                         []).
Proof. vm_compute. reflexivity. Qed.

(** The grid of [random.random()] against the threshold 0.8: of the [2^53]
    raw values, those below [7205759403792794] pass the test. *)
Lemma random_below_0_8 (g : Random.source) :
  Qltb (fst (Random.random g)) 0.8 =
  (Random.tape g (Random.cursor g) mod Random.two53 <? 7205759403792794)%N.
Proof.
  unfold Random.random, Random.next, Qltb, Qle_bool. simpl fst.
  set (k := (Random.tape g (Random.cursor g) mod Random.two53)%N).
  cbn [Qnum Qden]. 
  destruct (N.ltb_spec k 7205759403792794);
    [ apply negb_true_iff, Z.leb_gt | apply negb_false_iff, Z.leb_le ]; lia.
Qed.

(* ================================================================== *)
(** * Response Formatter *)

Lemma flush_words (w : str) :
  Forall (fun c => isspace c = false) w -> Forall word (flush w).
Proof.
  destruct w as [|c w]; intro H; simpl; constructor; [|constructor].
  split; [discriminate | exact H].
Qed.

Lemma split_from_words (s : str) :
  forall w, Forall (fun c => isspace c = false) w ->
            Forall word (split_from w s).
Proof.
  induction s as [|c s IH]; intros w Hw; simpl.
  - now apply flush_words.
  - destruct (isspace c) eqn:E.
    + apply Forall_app. split; [now apply flush_words | apply IH; constructor].
    + apply IH. apply Forall_app. split; [exact Hw | repeat constructor; exact E].
Qed.

Lemma split_words (s : str) : Forall word (split s).
Proof. apply split_from_words. constructor. Qed.

Lemma split_from_run (u : str) :
  Forall (fun c => isspace c = false) u ->
  forall w s, split_from w (u ++ s) = split_from (w ++ u) s.
Proof.
  induction 1 as [|c u Hc _ IH]; intros w s; simpl.
  - now rewrite app_nil_r.
  - rewrite Hc, IH, <- app_assoc. reflexivity.
Qed.

Lemma split_from_word (u w : str) :
  Forall (fun c => isspace c = false) u -> split_from w u = flush (w ++ u).
Proof.
  intro H. rewrite <- (app_nil_r u) at 1.
  rewrite split_from_run by exact H. reflexivity.
Qed.

Lemma split_from_space (w s : str) :
  split_from w (py " " ++ s) = flush w ++ split_from [] s.
Proof. reflexivity. Qed.

Lemma join_cons (sep u : str) (ws : list str) :
  ws <> [] -> join sep (u :: ws) = u ++ sep ++ join sep ws.
Proof. destruct ws; [congruence | reflexivity]. Qed.

Lemma split_join (ws : list str) :
  Forall word ws -> split (join (py " ") ws) = ws.
Proof.
  unfold split. induction 1 as [|u ws [Hne Hu] Hws IH]; [reflexivity|].
  destruct ws as [|v ws].
  - simpl. rewrite split_from_word by exact Hu.
    simpl. destruct u; [congruence | reflexivity].
  - rewrite join_cons by discriminate.
    rewrite split_from_run by exact Hu.
    rewrite split_from_space, IH.
    destruct u; [congruence | reflexivity].
Qed.

Lemma collapse_join (ws : list str) :
  Forall word ws -> collapse (join (py " ") ws) = join (py " ") ws.
Proof. intro H. unfold collapse. now rewrite split_join. Qed.

Lemma collapse_idempotent (s : str) : collapse (collapse s) = collapse s.
Proof. apply collapse_join, split_words. Qed.

(** Clean text is a sequence of words separated by single spaces, and
    conversely. *)
Lemma whitespace_normalized_words (s : str) :
  whitespace_normalized s <->
  exists ws, Forall word ws /\ s = join (py " ") ws.
Proof.
  split.
  - intro H. exists (split s). split; [apply split_words | now symmetry].
  - intros [ws [Hws ->]]. now apply collapse_join.
Qed.

(** A prefix of clean text, closed by a word, is clean text. *)
Lemma firstn_join_word (t : str) (ws : list str) :
  word t -> Forall word ws ->
  forall n, exists ws', Forall word ws' /\
                        firstn n (join (py " ") ws) ++ t = join (py " ") ws'.
Proof.
  intros Ht. induction 1 as [|u ws [Hne Hu] Hws IH]; intro n.
  - exists [t]. split; [constructor; [exact Ht | constructor]|].
    now rewrite firstn_nil.
  - assert (Hcut : forall m, word (firstn m u ++ t)).
    { intro m. destruct Ht as [Htn Hts]. split.
      - intro E. apply app_eq_nil in E as [_ E]. contradiction.
      - apply Forall_app. split; [|exact Hts].
        rewrite <- (firstn_skipn m u) in Hu.
        now apply Forall_app in Hu as [Hu _]. }
    destruct ws as [|v ws].
    + exists [firstn n u ++ t].
      split; [constructor; [apply Hcut | constructor] | reflexivity].
    + rewrite join_cons by discriminate. rewrite firstn_app.
      destruct (Nat.le_gt_cases n (length u)) as [Hle|Hgt].
      * replace (n - length u) with 0 by lia. rewrite firstn_O, app_nil_r.
        exists [firstn n u ++ t].
      split; [constructor; [apply Hcut | constructor] | reflexivity].
      * rewrite firstn_all2 by lia.
        destruct (n - length u) as [|m] eqn:E; [lia|].
        change (py " " ++ join (py " ") (v :: ws))
          with (32%N :: join (py " ") (v :: ws)).
        rewrite firstn_cons.
        destruct (IH m) as [ws' [Hws' Eq]].
        exists (u :: ws'). split; [constructor; [now split | exact Hws']|].
        rewrite (@join_cons (py " ") u ws').
        -- rewrite <- Eq, <- app_assoc. reflexivity.
        -- intros ->. simpl in Eq. destruct Ht as [Htn _].
           apply app_eq_nil in Eq as [_ Eq]. contradiction.
Qed.

Lemma ellipsis_word : word ellipsis.
Proof. split; [discriminate | repeat constructor]. Qed.

Lemma format_irc_response_eq (s : str) :
  format_irc_response s =
  if (400 <? length (collapse s))%nat
  then firstn 397 (collapse s) ++ ellipsis
  else collapse s.
Proof. reflexivity. Qed.

Lemma format_irc_response_clean (s : str) :
  whitespace_normalized (format_irc_response s).
Proof.
  rewrite format_irc_response_eq.
  destruct (400 <? length (collapse s))%nat.
  - destruct (firstn_join_word ellipsis_word (split_words s) 397)
      as [ws' [Hws' Eq]].
    unfold whitespace_normalized.
    change (collapse s) with (join (py " ") (split s)).
    rewrite Eq. now apply collapse_join.
  - apply collapse_idempotent.
Qed.

Lemma format_irc_response_length (s : str) :
  length (format_irc_response s) <= 400.
Proof.
  rewrite format_irc_response_eq.
  destruct (Nat.ltb_spec 400 (length (collapse s))) as [H|H]; [|exact H].
  rewrite length_app, length_firstn. change (length ellipsis) with 3. lia.
Qed.

(** Formatting a formatted text changes nothing, whatever the text. *)
Lemma format_irc_response_idempotent (s : str) :
  format_irc_response (format_irc_response s) = format_irc_response s.
Proof.
  rewrite (format_irc_response_eq (format_irc_response s)).
  rewrite (format_irc_response_clean s).
  pose proof (format_irc_response_length s) as H.
  apply Nat.ltb_ge in H. now rewrite H.
Qed.

(** C7. The output of the formatter never has more than 400 characters;
    and when the collapsed text has more than 400, the output is its first
    397 characters followed by the three-character ellipsis, 400 in all. *)
Theorem format_irc_response_bound (s : str) :
  length (format_irc_response s) <= 400 /\
  (400 < length (collapse s) ->
   format_irc_response s = firstn 397 (collapse s) ++ ellipsis /\
   length (firstn 397 (collapse s)) = 397 /\
   length ellipsis = 3 /\
   length (format_irc_response s) = 400).
Proof.
  split; [apply format_irc_response_length|].
  intro H. rewrite format_irc_response_eq.
  apply Nat.ltb_lt in H as Hb. rewrite Hb.
  rewrite length_app, length_firstn. change (length ellipsis) with 3.
  repeat split; lia.
Qed.

(** C8. On text that is already whitespace-normalized and within the 400
    character limit, formatting twice is formatting once (and formatting
    once returns the text itself). *)
Theorem format_irc_response_idempotent_clean (s : str) :
  whitespace_normalized s ->
  length s <= 400 ->
  format_irc_response (format_irc_response s) = format_irc_response s /\
  format_irc_response s = s.
Proof.
  intros Hc Hl. split; [apply format_irc_response_idempotent|].
  rewrite format_irc_response_eq, Hc.
  apply Nat.ltb_ge in Hl. now rewrite Hl.
Qed.

Lemma format_irc_response_bound_witness :
  format_irc_response long_text = firstn 397 (collapse long_text) ++ ellipsis /\
  length (format_irc_response long_text) = 400.
Proof.
  destruct (format_irc_response_bound long_text) as [_ H].
  destruct H as (H1 & _ & _ & H4).
  - vm_compute. lia.
  - split; assumption.
Defined.

Lemma format_irc_response_idempotent_clean_witness :
  format_irc_response (format_irc_response (py "I think about thinking."))
  = format_irc_response (py "I think about thinking.").
Proof.
  refine (proj1 (@format_irc_response_idempotent_clean
                   (py "I think about thinking.") _ _)).
  - vm_compute. reflexivity.
  - vm_compute. lia.
Defined.

Example format_collapses :
  format_irc_response (py "  Do   you" ++ [10%N; 9%N] ++ py "dream? ")
  = py "Do you dream?".
Proof. vm_compute. reflexivity. Qed.

Example format_blank : format_irc_response (py " " ++ [9%N] ++ py " ") = [].
Proof. vm_compute. reflexivity. Qed.

(* ================================================================== *)
(** * Provider Adapter *)

(** ** Facts about any chain *)

Lemma fallback_chain_failed (ps : list provider) :
  Forall failed ps -> snd (fallback_chain ps) = None.
Proof.
  induction 1 as [|p ps Hp _ IH]; [reflexivity|].
  simpl. unfold failed in Hp.
  destruct (answer p) as [[c|]|e]; simpl in *; [congruence | exact IH | exact IH].
Qed.

(** The calls made are those of a prefix of the chain, in its order. *)
Lemma fallback_chain_calls (ps : list provider) :
  Forall (fun p => is_call (request p) = true) ps ->
  exists k, filter is_call (fst (fallback_chain ps)) = map request (firstn k ps).
Proof.
  induction 1 as [|p ps Hp _ [k IH]]; [now exists 0|].
  exists (match failure (answer p) with Some _ => S k | None => 1 end).
  simpl. destruct (answer p) as [[c|]|e]; simpl; rewrite Hp; simpl.
  - reflexivity.
  - now rewrite IH.
  - now rewrite IH.
Qed.

(** Once a provider succeeds its text is the result, and the calls made
    are those of the failed providers before it and its own: none after. *)
Lemma fallback_chain_success (before rest : list provider) (p : provider)
    (content : str) :
  Forall (fun p => is_call (request p) = true) (before ++ [p]) ->
  Forall failed before ->
  answer p = Returned (Some content) ->
  snd (fallback_chain (before ++ p :: rest))
    = Some (format_irc_response content) /\
  filter is_call (fst (fallback_chain (before ++ p :: rest)))
    = map request (before ++ [p]).
Proof.
  intros Hc Hf Hp. induction Hf as [|q before Hq _ IH].
  - simpl in *. rewrite Hp. simpl. inversion Hc as [|? ? Hr _]; subst.
    rewrite Hr. split; reflexivity.
  - inversion Hc as [|? ? Hr Hc']; subst. destruct (IH Hc') as [IH1 IH2].
    simpl. unfold failed in Hq.
    destruct (answer q) as [[c|]|e]; simpl in *; try congruence;
      rewrite Hr; simpl; rewrite IH2; split; auto.
Qed.

(** A failed provider that was reached has its error logged right after
    its call, and the next provider, if any, is called right after that. *)
Lemma fallback_chain_failure (before rest : list provider) (p : provider)
    (e : str) :
  Forall failed before ->
  failure (answer p) = Some e ->
  exists t1 t2,
    fst (fallback_chain (before ++ p :: rest))
      = t1 ++ request p :: Print (error_label p ++ e) :: t2 /\
    t2 = fst (fallback_chain rest) /\
    (forall q rest', rest = q :: rest' -> exists t3, t2 = request q :: t3).
Proof.
  intros Hf Hp. induction Hf as [|q before Hq _ (t1 & t2 & E & E2 & Hn)].
  - exists [], (fst (fallback_chain rest)). simpl.
    destruct (answer p) as [[c|]|e']; simpl in Hp; try discriminate;
      injection Hp as <-; (split; [reflexivity|]); (split; [reflexivity|]);
      intros q rest' ->; simpl; destruct (answer q) as [[c|]|e''];
      eexists; reflexivity.
  - unfold failed in Hq. simpl.
    destruct (answer q) as [[c|]|e'] eqn:Eq; simpl in *; try congruence.
    + exists (request q :: Print (error_label q ++ none_split_error) :: t1), t2.
      rewrite E. repeat split; auto.
    + exists (request q :: Print (error_label q ++ e') :: t1), t2.
      rewrite E. repeat split; auto.
Qed.

Lemma providers_are_calls (me : Bot) (message sender : str) :
  Forall (fun p => is_call (request p) = true) (providers_of me message sender).
Proof.
  unfold providers_of, local_provider, cloud_provider.
  destruct (ollama_client me), (openai_client me); repeat constructor.
Qed.

(** Each backend is called at most once in a chain of the bot. *)
Lemma providers_called_once (me : Bot) (message sender : str) :
  let t := fst (fallback_chain (providers_of me message sender)) in
  length (filter is_ollama_call t) <= 1 /\ length (filter is_cloud_call t) <= 1.
Proof.
  unfold providers_of, local_provider, cloud_provider.
  destruct (ollama_client me) as [chat|], (openai_client me) as [create|];
    simpl.
  - destruct (chat _ _ _) as [[c|]|e]; simpl; try lia;
      destruct (create _ _ _) as [[c'|]|e']; simpl; lia.
  - destruct (chat _ _ _) as [[c|]|e]; simpl; lia.
  - destruct (create _ _ _) as [[c'|]|e']; simpl; lia.
  - lia.
Qed.

Section Provider.

Variable lower : str -> str.

(** ** The method runs the chain of its providers, then the canned
    responses *)
Lemma get_consciousness_response_chain (w : World) (message sender : str) :
  get_consciousness_response lower message sender w =
  let c := fallback_chain (providers_of (self w) message sender) in
  match snd c with
  | Some text => Some (text, after (fst c) w)
  | None => get_fallback_consciousness_response lower message (after (fst c) w)
  end.
Proof.
  destruct w as [me g tr].
  unfold providers_of, local_provider, cloud_provider, none_split_error.
  cbv [get_consciousness_response]. run.
  destruct (ollama_client me) as [chat|]; run; cbn [app fallback_chain answer].
  - destruct (chat _ _ _) as [[c|]|e]; run;
      cbn [fst snd failure request error_label];
      [reflexivity| |];
      (destruct (openai_client me) as [create|]; run;
       cbn [fallback_chain answer];
       [ destruct (create _ _ _) as [[c'|]|e']; run;
         cbn [fst snd failure request error_label]
       | cbn [fst snd] ]);
      repeat rewrite <- app_assoc; reflexivity.
  - destruct (openai_client me) as [create|]; run; cbn [fallback_chain answer].
    + destruct (create _ _ _) as [[c'|]|e']; run;
        cbn [fst snd failure request error_label];
        repeat rewrite <- app_assoc; reflexivity.
    + cbn [fst snd]. now rewrite app_nil_r.
Qed.

(** C1. [get_consciousness_response] runs the fallback chain over its
    providers in fixed priority order, the local backend first and the
    cloud backend second.  The calls made are those of a prefix of that
    order; each backend is called at most once, with no retry.  When a
    provider succeeds its formatted text is returned at once and no later
    provider is called; when a provider fails its error is printed right
    after its call and the next provider is called next. *)
Theorem get_consciousness_response_fallback_chain
    (w : World) (message sender : str) :
  let ps := local_provider (self w) message sender
            ++ cloud_provider (self w) message sender in
  let t := fst (fallback_chain ps) in
  get_consciousness_response lower message sender w =
    match snd (fallback_chain ps) with
    | Some text => Some (text, after t w)
    | None => get_fallback_consciousness_response lower message (after t w)
    end /\
  (exists k, filter is_call t = map request (firstn k ps)) /\
  length (filter is_ollama_call t) <= 1 /\
  length (filter is_cloud_call t) <= 1 /\
  (forall before p rest content,
      ps = before ++ p :: rest -> Forall failed before ->
      answer p = Returned (Some content) ->
      get_consciousness_response lower message sender w
        = Some (format_irc_response content, after t w) /\
      filter is_call t = map request (before ++ [p])) /\
  (forall before p rest e,
      ps = before ++ p :: rest -> Forall failed before ->
      failure (answer p) = Some e ->
      exists t1 t2,
        t = t1 ++ request p :: Print (error_label p ++ e) :: t2 /\
        (forall q rest', rest = q :: rest' -> exists t3, t2 = request q :: t3)).
Proof.
  intros ps t. change ps with (providers_of (self w) message sender) in *.
  clear ps. set (ps := providers_of (self w) message sender) in *.
  split; [apply get_consciousness_response_chain|].
  split; [apply fallback_chain_calls, providers_are_calls|].
  split; [apply providers_called_once|].
  split; [apply providers_called_once|].
  split.
  - intros before p rest content E Hf Hp.
    pose proof (providers_are_calls (self w) message sender) as Hc.
    fold ps in Hc. rewrite E in Hc.
    assert (Hc' : Forall (fun p => is_call (request p) = true) (before ++ [p])).
    { apply Forall_app in Hc as [Hb Hp']. apply Forall_app. split; [exact Hb|].
      inversion Hp'; subst. repeat constructor. assumption. }
    destruct (@fallback_chain_success before rest p content Hc' Hf Hp)
      as [H1 H2].
    rewrite get_consciousness_response_chain. cbv zeta.
    fold ps. subst t. rewrite E, H1, H2. split; reflexivity.
  - intros before p rest e E Hf Hp.
    destruct (@fallback_chain_failure before rest p e Hf Hp)
      as (t1 & t2 & E1 & _ & Hn).
    exists t1, t2. subst t. rewrite E. split; assumption.
Qed.

End Provider.

Lemma get_consciousness_response_fallback_chain_witness :
  get_consciousness_response ascii_lower (py "hello") (py "alice")
                             cloud_only_world
  = Some (py "I am aware.",
          after [ OllamaChat (py "mistral:latest") get_consciousness_personality
                             (py "alice said: hello");
                  Print (py "❌ Ollama error: connection refused");
                  CloudCreate (py "gpt-3.5-turbo") get_consciousness_personality
                              (py "alice said: hello") ]
                cloud_only_world).
Proof.
  destruct (get_consciousness_response_fallback_chain ascii_lower
              cloud_only_world (py "hello") (py "alice"))
    as (_ & _ & _ & _ & Hsucc & _).
  destruct (Hsucc [ mkProvider
                      (OllamaChat (py "mistral:latest")
                                  get_consciousness_personality
                                  (py "alice said: hello"))
                      (py "❌ Ollama error: ")
                      (Raised (py "connection refused")) ]
                  (mkProvider
                      (CloudCreate (py "gpt-3.5-turbo")
                                   get_consciousness_personality
                                   (py "alice said: hello"))
                      (py "❌ Cloud AI error: ")
                      (Returned (Some (py "  I am   aware. "))))
                  [] (py "  I am   aware. ")) as [H _].
  - vm_compute. reflexivity.
  - repeat constructor. unfold failed. simpl. discriminate.
  - reflexivity.
  - rewrite H. vm_compute. reflexivity.
Defined.

(* ================================================================== *)
(** * Fallback Canned Responses *)

Lemma choice_in (A : Type) (seq : list A) (g : Random.source) :
  seq <> [] ->
  exists x, Random.choice seq g = Some (x, snd (Random.next g)) /\ In x seq.
Proof.
  destruct seq as [|d seq]; [congruence|]. intros _.
  unfold Random.choice, Random.next. cbn [snd].
  eexists. split; [reflexivity|].
  apply nth_In.
  set (n := length (d :: seq)).
  assert (Hn : N.of_nat n <> 0%N) by (subst n; simpl; lia).
  pose proof (N.mod_lt (Random.tape g (Random.cursor g)) (N.of_nat n) Hn).
  lia.
Qed.

Lemma responses_truthy : forall r, In r responses -> r <> [].
Proof.
  assert (H : forallb truthy responses = true) by (vm_compute; reflexivity).
  intros r Hr ->. rewrite forallb_forall in H. now apply H in Hr.
Qed.

Section Canned.

Variable lower : str -> str.

Lemma relevant_entries :
  relevant = [ nth 0 responses []; nth 2 responses []; nth 3 responses [];
               nth 4 responses []; nth 8 responses [] ].
Proof. vm_compute. reflexivity. Qed.

Lemma pool_in_responses (message r : str) :
  In r (pool lower message) -> In r responses.
Proof.
  assert (Hincl : forall x, In x relevant -> In x responses).
  { intros x Hx. unfold relevant in Hx. apply filter_In in Hx. apply Hx. }
  unfold pool. destruct (any_word_in (lower message)); [|exact (fun H => H)].
  destruct relevant as [|a l]; [exact (fun H => H) | apply Hincl].
Qed.

Lemma pool_nonempty (message : str) : pool lower message <> [].
Proof.
  unfold pool. destruct (any_word_in (lower message)).
  - destruct relevant; discriminate.
  - discriminate.
Qed.

Lemma get_fallback_consciousness_response_pool (message : str) (w : World) :
  get_fallback_consciousness_response lower message w
  = random_choice (pool lower message) w.
Proof.
  unfold get_fallback_consciousness_response, pool. fold relevant.
  destruct (any_word_in (lower message)); [|reflexivity].
  destruct relevant; reflexivity.
Qed.

(** C2. When every provider of the request fails, or the bot has none,
    [get_consciousness_response] returns one canned response: an entry of
    the fixed table, and not the empty string.  It is picked, by one draw
    of the randomness source, among the entries that hold one of
    think/mind/aware when the lower-cased message holds one of them (the
    full table if no entry did), and among the full table otherwise. *)
Theorem canned_response_when_exhausted (w : World) (message sender : str) :
  Forall failed (providers_of (self w) message sender) ->
  exists r,
    get_consciousness_response lower message sender w
      = Some (r, mkWorld (self w) (snd (Random.next (rand w)))
                   (trace w ++ fst (fallback_chain
                                      (providers_of (self w) message sender)))) /\
    Random.choice
      (if any_word_in (lower message)
       then match filter any_word_in responses with
            | [] => responses
            | entries => entries
            end
       else responses)
      (rand w) = Some (r, snd (Random.next (rand w))) /\
    In r responses /\
    (any_word_in (lower message) = true -> any_word_in r = true) /\
    r <> [].
Proof.
  intro Hf. rewrite get_consciousness_response_chain. cbv zeta.
  rewrite (fallback_chain_failed Hf).
  rewrite get_fallback_consciousness_response_pool.
  destruct (@choice_in _ (pool lower message) (rand w) (pool_nonempty message))
    as [r [Hc Hin]].
  exists r. unfold random_choice, after. cbn [self rand trace].
  rewrite Hc. split; [reflexivity|]. split; [exact Hc|].
  split; [now apply pool_in_responses with message|].
  split; [|apply responses_truthy; now apply pool_in_responses with message].
  intro Hk. unfold pool in Hin. rewrite Hk in Hin.
  rewrite relevant_entries in Hin. cbn [In nth responses map] in Hin.
  repeat (destruct Hin as [<-|Hin]; [vm_compute; reflexivity|]).
  destruct Hin.
Qed.

End Canned.

Lemma canned_response_when_exhausted_witness :
  exists r,
    get_consciousness_response ascii_lower (py "What do you THINK?") (py "alice")
                               (world0 (Some refusing) None [13%N])
    = Some (r, mkWorld (default_bot (Some refusing) None)
                       (snd (Random.next (source_of [13%N])))
                       [ OllamaChat (py "mistral:latest")
                                    get_consciousness_personality
                                    (py "alice said: What do you THINK?");
                         Print (py "❌ Ollama error: connection refused") ]) /\
    r = nth 4 responses [].
Proof.
  destruct (@canned_response_when_exhausted ascii_lower
              (world0 (Some refusing) None [13%N])
              (py "What do you THINK?") (py "alice"))
    as (r & H1 & H2 & _).
  - repeat constructor. unfold failed. simpl. discriminate.
  - exists r. split; [exact H1|].
    vm_compute in H2. injection H2 as <-. vm_compute. reflexivity.
Defined.

(* ================================================================== *)
(** * Heartbeat Loop *)

Lemma Qltb_lt (x y : Q) : Qltb x y = true <-> (x < y)%Q.
Proof.
  unfold Qltb. rewrite negb_true_iff. split.
  - intro H. apply Qnot_le_lt. intro L. apply Qle_bool_iff in L. congruence.
  - intro H. destruct (Qle_bool y x) eqn:E; [|reflexivity].
    apply Qle_bool_iff in E. exfalso. exact (Qlt_not_le _ _ H E).
Qed.

Lemma pulses_nonempty : pulses <> [].
Proof. discriminate. Qed.

Section HeartbeatTurn.

Variable fsub : Q -> Q -> Q.
Variable fmul : Q -> Q -> Q.


End HeartbeatTurn.



Lemma last_cons_any (A : Type) (x : A) (l : list A) (d d' : A) :
  last (x :: l) d = last (x :: l) d'.
Proof.
  revert x. induction l as [|y l IH]; intro x; [reflexivity|].
  change (last (y :: l) d = last (y :: l) d'). apply IH.
Qed.

(* ================================================================== *)
(** * Conversation Memory and the two message handlers *)

Lemma lastn_length (A : Type) (n : nat) (l : list A) :
  length (lastn n l) = Nat.min n (length l).
Proof. unfold lastn. rewrite length_skipn. lia. Qed.

Lemma lastn_all (A : Type) (n : nat) (l : list A) :
  length l <= n -> lastn n l = l.
Proof. intro H. unfold lastn. now replace (length l - n) with 0 by lia. Qed.

Lemma lastn_remember (me : Bot) (m : Message) (rest : list Message) :
  length (conversation_memory me) <= max_memory me ->
  length (remember me m) <= max_memory me /\
  lastn (max_memory me) (remember me m ++ rest)
  = lastn (max_memory me) (conversation_memory me ++ m :: rest).
Proof.
  intro H. unfold remember. cbv zeta.
  replace (conversation_memory me ++ m :: rest)
    with ((conversation_memory me ++ [m]) ++ rest)
    by (rewrite <- app_assoc; reflexivity).
  set (x := conversation_memory me ++ [m]).
  assert (Hx : length x = S (length (conversation_memory me)))
    by (subst x; rewrite length_app; simpl; lia).
  destruct (Nat.ltb_spec (max_memory me) (length x)) as [Hlt|Hge].
  - destruct x as [|a x]; [simpl in Hx; lia|]. simpl in Hx, Hlt. cbn [tl].
    split; [lia|]. unfold lastn. rewrite !length_app. cbn [length app].
    replace (S (length x) + length rest - max_memory me)
      with (S (length x + length rest - max_memory me)) by lia.
    reflexivity.
  - split; [lia | reflexivity].
Qed.

Lemma fallback_chain_no_send (ps : list provider) :
  Forall (fun p => is_call (request p) = true) ps ->
  filter is_send (fst (fallback_chain ps)) = [].
Proof.
  induction 1 as [|p ps Hp _ IH]; [reflexivity|].
  assert (Hs : is_send (request p) = false)
    by (revert Hp; unfold is_call; destruct (request p); simpl; congruence).
  simpl. destruct (answer p) as [[c|]|e]; simpl; rewrite Hs; auto.
Qed.

Section Orchestrator.

Variable lower : str -> str.

Lemma should_respond_total (w : World) (message sender : str) :
  exists b g,
    should_respond lower message sender w
    = Some (b, mkWorld (self w) g (trace w)).
Proof.
  destruct w as [me g tr]. cbv [should_respond]. run.
  destruct (str_eqb sender (nickname me)); [eexists _, _; reflexivity|].
  destruct (contains (lower (nickname me)) (lower message));
    [eexists _, _; reflexivity|].
  destruct (existsb (fun kw => contains kw (lower message))
                    consciousness_keywords) eqn:E.
  - apply existsb_exists in E. rewrite keyword_loop_hit by exact E.
    eexists _, _; reflexivity.
  - rewrite keyword_loop_miss.
    + destruct (contains (py "?") message); run; eexists _, _; reflexivity.
    + intros kw Hin. destruct (contains kw (lower message)) eqn:C; [|reflexivity].
      assert (existsb (fun kw => contains kw (lower message))
                      consciousness_keywords = true)
        by (apply existsb_exists; eauto).
      congruence.
Qed.

(** The generation never raises; it leaves the bot as it was and adds only
    backend calls and log lines; its text is empty exactly when the chain
    ended on a provider whose formatted text is empty. *)
Lemma get_consciousness_response_total (w : World) (message sender : str) :
  exists r g,
    get_consciousness_response lower message sender w
    = Some (r, mkWorld (self w) g
                 (trace w ++ fst (fallback_chain
                                    (providers_of (self w) message sender)))) /\
    (snd (fallback_chain (providers_of (self w) message sender)) = Some []
     <-> r = []).
Proof.
  rewrite get_consciousness_response_chain. cbv zeta.
  destruct (snd (fallback_chain (providers_of (self w) message sender)))
    as [text|] eqn:E.
  - exists text, (rand w). split; [reflexivity|].
    split; [now intros [= ->] | now intros ->].
  - rewrite get_fallback_consciousness_response_pool.
    destruct (@choice_in _ (pool lower message) (rand w)
                (pool_nonempty lower message)) as [r [Hc Hin]].
    exists r, (snd (Random.next (rand w))).
    unfold random_choice, after. cbn [self rand trace]. rewrite Hc.
    split; [reflexivity|]. split; [discriminate|].
    intros ->. apply pool_in_responses, responses_truthy in Hin. congruence.
Qed.

(** [on_pubmsg] never raises.  It leaves the memory as [remember] says and
    the rest of the bot as it was; and when the response generated is the
    empty string it starts no timer and sends nothing. *)
Lemma on_pubmsg_total (w : World) (message sender : str) (now : Q) :
  exists g t,
    on_pubmsg lower message sender now w
    = Some (tt, mkWorld (set_conversation_memory
                           (remember (self w) (mkMessage sender message now))
                           (self w))
                        g (trace w ++ t)) /\
    (snd (fallback_chain (providers_of (self w) message sender)) = Some [] ->
     filter is_send t = []).
Proof.
  destruct w as [me g tr]. cbv [on_pubmsg]. run.
  set (me' := set_conversation_memory _ me).
  change (set_conversation_memory
            (remember me (mkMessage sender message now)) me) with me'.
  destruct (should_respond_total (mkWorld me' g tr) message sender)
    as (b & g1 & Hs).
  cbn [self trace] in Hs. rewrite Hs. destruct b.
  - destruct (get_consciousness_response_total (mkWorld me' g1 tr)
                message sender) as (r & g2 & Hr & Hiff).
    cbn [self trace] in Hr, Hiff. rewrite Hr.
    change (providers_of me' message sender)
      with (providers_of me message sender) in *.
    destruct (truthy r) eqn:T.
    + cbv [Random.uniform Random.random Random.next]. run.
      rewrite <- app_assoc. eexists _, _. split; [reflexivity|].
      intro E. apply Hiff in E. subst r. discriminate T.
    + eexists _, _. split; [reflexivity|]. intros _.
      apply fallback_chain_no_send, providers_are_calls.
  - exists g1, []. rewrite app_nil_r. split; reflexivity.
Qed.

(** C6. Over any run of public messages, from a memory within its
    capacity (the bot starts with an empty one and capacity 10): the
    handler never fails, the capacity does not change, the memory never
    holds more than the capacity, and it holds the last [max_memory] of all
    the messages recorded so far, in arrival order; so after more than
    [max_memory] messages from the start, exactly the last [max_memory] of
    them. *)
Theorem conversation_memory_bounded (events : list (str * str * Q)) :
  forall w : World,
    length (conversation_memory (self w)) <= max_memory (self w) ->
    exists w',
      on_pubmsgs lower events w = Some (tt, w') /\
      max_memory (self w') = max_memory (self w) /\
      length (conversation_memory (self w')) <= max_memory (self w') /\
      conversation_memory (self w')
      = lastn (max_memory (self w))
              (conversation_memory (self w) ++ records events) /\
      (conversation_memory (self w) = [] ->
       max_memory (self w) < length events ->
       conversation_memory (self w')
       = skipn (length events - max_memory (self w)) (records events) /\
       length (conversation_memory (self w')) = max_memory (self w)).
Proof.
  assert (Main : forall w : World,
    length (conversation_memory (self w)) <= max_memory (self w) ->
    exists w',
      on_pubmsgs lower events w = Some (tt, w') /\
      max_memory (self w') = max_memory (self w) /\
      conversation_memory (self w')
      = lastn (max_memory (self w))
              (conversation_memory (self w) ++ records events)).
  { induction events as [|[[message sender] now] rest IH]; intros w Hw.
    - exists w. split; [reflexivity|]. split; [reflexivity|].
      cbn [records map]. rewrite app_nil_r. symmetry. now apply lastn_all.
    - destruct (on_pubmsg_total w message sender now) as (g & t & H & _).
      destruct (@lastn_remember (self w) (mkMessage sender message now)
                  (records rest) Hw) as [Hlen Hlast].
      set (w1 := mkWorld _ g (trace w ++ t)) in H.
      destruct (IH w1) as (w' & Hrun & Hcap & Hmem); [exact Hlen|].
      exists w'. cbn [on_pubmsgs]. unfold bind at 1. rewrite H.
      split; [exact Hrun|]. split; [exact Hcap|].
      rewrite Hmem. exact Hlast. }
  intros w Hw. destruct (Main w Hw) as (w' & Hrun & Hcap & Hmem).
  exists w'. split; [exact Hrun|]. split; [exact Hcap|].
  split; [rewrite Hmem, Hcap, lastn_length; lia|].
  split; [exact Hmem|].
  intros Hempty Hmany. rewrite Hmem, Hempty. cbn [app].
  assert (Hr : length (records events) = length events)
    by (unfold records; apply length_map).
  split; [unfold lastn; now rewrite Hr|].
  rewrite lastn_length, Hr. lia.
Qed.

(** C10. When the text generated for a message is the empty string (a
    provider succeeded with content that collapses to nothing), no reply
    goes out: [on_pubmsg] starts no timer and [on_privmsg] sends no
    message.  Both handlers complete, [on_privmsg] leaves the world as the
    generation left it, and the sends of the trace are what they were. *)
Theorem empty_response_not_sent
    (w w1 : World) (message sender : str) (now : Q) :
  get_consciousness_response lower message sender w = Some ([], w1) ->
  (exists w', on_pubmsg lower message sender now w = Some (tt, w') /\
              filter is_send (trace w') = filter is_send (trace w)) /\
  on_privmsg lower message sender w = Some (tt, w1) /\
  filter is_send (trace w1) = filter is_send (trace w).
Proof.
  intro E.
  destruct (get_consciousness_response_total w message sender)
    as (r & g & Hr & Hiff).
  rewrite E in Hr. injection Hr as <- ->.
  assert (Hc : snd (fallback_chain (providers_of (self w) message sender))
               = Some []) by now apply Hiff.
  split; [|split].
  - destruct (on_pubmsg_total w message sender now) as (g' & t & H & Hsend).
    eexists. split; [exact H|]. cbn [trace].
    rewrite filter_app, (Hsend Hc). apply app_nil_r.
  - unfold on_privmsg, bind. rewrite E. reflexivity.
  - cbn [trace].
    rewrite filter_app, fallback_chain_no_send by apply providers_are_calls.
    apply app_nil_r.
Qed.

End Orchestrator.

Lemma empty_response_not_sent_witness :
  (exists w', on_pubmsg ascii_lower (py "ConsciousnessBridge?") (py "alice") 7
                        blank_world = Some (tt, w') /\
              filter is_send (trace w') = []) /\
  on_privmsg ascii_lower (py "ConsciousnessBridge?") (py "alice") blank_world
  = Some (tt, after [ OllamaChat (py "mistral:latest")
                                 get_consciousness_personality
                                 (py "alice said: ConsciousnessBridge?") ]
                    blank_world).
Proof.
  destruct (@empty_response_not_sent ascii_lower blank_world
              (after [ OllamaChat (py "mistral:latest")
                                  get_consciousness_personality
                                  (py "alice said: ConsciousnessBridge?") ]
                     blank_world)
              (py "ConsciousnessBridge?") (py "alice") 7) as (H1 & H2 & _).
  - vm_compute. reflexivity.
  - split; assumption.
Defined.

Lemma conversation_memory_bounded_witness :
  exists w',
    on_pubmsgs ascii_lower twelve (world0 None None []) = Some (tt, w') /\
    length (conversation_memory (self w')) = 10 /\
    conversation_memory (self w') = skipn 2 (records twelve).
Proof.
  destruct (@conversation_memory_bounded ascii_lower twelve
              (world0 None None []))
    as (w' & Hrun & _ & _ & _ & Hlast).
  - vm_compute. lia.
  - destruct Hlast as [Hmem Hlen]; [reflexivity | vm_compute; lia |].
    exists w'. split; [exact Hrun|]. split; [exact Hlen | exact Hmem].
Defined.

(* ================================================================== *)
(** * Runs of the handlers on concrete worlds *)

(** A mention is answered through the cloud backend, and the reply is
    scheduled on the channel after [1.0 + uniform(0.5, 2.0)] seconds. *)
Example on_pubmsg_mention :
  option_map (fun r => trace (snd r))
             (on_pubmsg ascii_lower (py "ConsciousnessBridge, hello")
                        (py "alice") 7 cloud_only_world)
  = Some [ OllamaChat (py "mistral:latest") get_consciousness_personality
                      (py "alice said: ConsciousnessBridge, hello");
           Print (py "❌ Ollama error: connection refused");
           CloudCreate (py "gpt-3.5-turbo") get_consciousness_personality
                       (py "alice said: ConsciousnessBridge, hello");
           TimerStart (1.0 + (0.5 + (2.0 - 0.5) * (0 # 9007199254740992)))%Q
                      (py "#consciousness") (py "I am aware.") ].
Proof. vm_compute. reflexivity. Qed.

(** A plain question goes to the 0.4 test, plain talk to the 0.15 test. *)
Example should_respond_question :
  should_respond ascii_lower (py "Lunch?") (py "alice") (world0 None None [])
  = one_draw 0.4 (world0 None None []).
Proof. vm_compute. reflexivity. Qed.

Example should_respond_general :
  should_respond ascii_lower (py "Lunch.") (py "alice") (world0 None None [])
  = one_draw 0.15 (world0 None None []).
Proof. vm_compute. reflexivity. Qed.

(** A turn of the heartbeat on time: nothing but the sleep, and the tick
    recorded. *)
Example heartbeat_on_time :
  option_map (fun r => (trace (snd r), last_heartbeat (self (snd r))))
             (heartbeat_iteration Qminus Qmult 300 false
                                  (world0 None None []))
  = Some ([Sleep 300], 300%Q).
Proof. vm_compute. reflexivity. Qed.

(** With no backend at all the private reply is a canned response. *)
Example on_privmsg_canned :
  option_map (fun r => trace (snd r))
             (on_privmsg ascii_lower (py "hi") (py "alice")
                         (world0 None None [21%N]))
  = Some [ Privmsg (py "alice")
                   (py "🧠 ConsciousnessBridge: " ++ nth 1 responses []) ].
Proof. vm_compute. reflexivity. Qed.

(* ================================================================== *)
(** * Decision Engine: the remaining rules *)

Lemma existsb_false_all (A : Type) (f : A -> bool) (l : list A) :
  existsb f l = false -> forall x, In x l -> f x = false.
Proof.
  intros H x Hin. destruct (f x) eqn:E; [|reflexivity].
  assert (existsb f l = true) by (apply existsb_exists; eauto). congruence.
Qed.

Lemma Qltb_mono (u p q : Q) : (p <= q)%Q -> Qltb u p = true -> Qltb u q = true.
Proof.
  intros Hpq H. apply Qltb_lt in H. apply Qltb_lt.
  eapply Qlt_le_trans; eassumption.
Qed.

Section Rules.

Variable lower : str -> str.

(** X1. A message from someone else, without the nickname and without any
    keyword, that has a question mark: the answer is the outcome of one
    [random.random() < 0.4] test. *)
Theorem should_respond_question_draw (w : World) (message sender : str) :
  sender <> nickname (self w) ->
  contains (lower (nickname (self w))) (lower message) = false ->
  has_keyword lower message = false ->
  contains (py "?") message = true ->
  should_respond lower message sender w = one_draw 0.4 w.
Proof.
  intros Hs Hm Hk Hq. unfold should_respond, bind, get_self.
  rewrite (str_eqb_neq Hs), Hm.
  rewrite keyword_loop_miss by (apply existsb_false_all; exact Hk).
  rewrite Hq. reflexivity.
Qed.

(** X2. A message from someone else, without the nickname, without any
    keyword and without a question mark: the answer is the outcome of one
    [random.random() < 0.15] test. *)
Theorem should_respond_general_draw (w : World) (message sender : str) :
  sender <> nickname (self w) ->
  contains (lower (nickname (self w))) (lower message) = false ->
  has_keyword lower message = false ->
  contains (py "?") message = false ->
  should_respond lower message sender w = one_draw 0.15 w.
Proof.
  intros Hs Hm Hk Hq. unfold should_respond, bind, get_self.
  rewrite (str_eqb_neq Hs), Hm.
  rewrite keyword_loop_miss by (apply existsb_false_all; exact Hk).
  rewrite Hq. reflexivity.
Qed.

(** What [should_respond] does in every case. *)
Lemma should_respond_cases (w : World) (message sender : str) :
  should_respond lower message sender w =
  if str_eqb sender (nickname (self w)) then Some (false, w)
  else if contains (lower (nickname (self w))) (lower message)
  then Some (true, w)
  else if has_keyword lower message then one_draw 0.8 w
  else if contains (py "?") message then one_draw 0.4 w
  else one_draw 0.15 w.
Proof.
  unfold should_respond, bind, get_self.
  destruct (str_eqb sender (nickname (self w))); [reflexivity|].
  destruct (contains (lower (nickname (self w))) (lower message));
    [reflexivity|].
  destruct (has_keyword lower message) eqn:Hk.
  - apply existsb_exists in Hk. now rewrite keyword_loop_hit by exact Hk.
  - rewrite keyword_loop_miss by (apply existsb_false_all; exact Hk).
    destruct (contains (py "?") message); reflexivity.
Qed.

(** X3. The decision never fails, never changes the bot and has no outward
    effect.  It reads no random value when the sender is the bot or the
    message names the bot, and exactly one otherwise. *)
Theorem should_respond_frame (w : World) (message sender : str) :
  exists b g,
    should_respond lower message sender w
    = Some (b, mkWorld (self w) g (trace w)) /\
    (if str_eqb sender (nickname (self w))
        || contains (lower (nickname (self w))) (lower message)
     then g = rand w
     else g = snd (Random.next (rand w))).
Proof.
  rewrite should_respond_cases. destruct w as [me g tr]. cbn [self rand trace].
  destruct (str_eqb sender (nickname me)); cbn [orb];
    [eexists _, _; split; reflexivity|].
  destruct (contains (lower (nickname me)) (lower message));
    [eexists _, _; split; reflexivity|].
  destruct (has_keyword lower message);
    [|destruct (contains (py "?") message)];
    unfold one_draw; cbn [self rand trace]; eexists _, _; split; reflexivity.
Qed.

(** X4. On the same random value the three probabilistic rules are nested:
    a draw that gets plain talk answered gets a question answered, and a
    draw that gets a question answered gets a keyword message answered. *)
Theorem should_respond_nested
    (w : World) (plain question keyword sender : str) :
  sender <> nickname (self w) ->
  contains (lower (nickname (self w))) (lower plain) = false ->
  contains (lower (nickname (self w))) (lower question) = false ->
  contains (lower (nickname (self w))) (lower keyword) = false ->
  has_keyword lower plain = false -> contains (py "?") plain = false ->
  has_keyword lower question = false -> contains (py "?") question = true ->
  has_keyword lower keyword = true ->
  exists b1 b2 b3 w',
    should_respond lower plain sender w = Some (b1, w') /\
    should_respond lower question sender w = Some (b2, w') /\
    should_respond lower keyword sender w = Some (b3, w') /\
    (b1 = true -> b2 = true) /\ (b2 = true -> b3 = true).
Proof.
  intros Hs Hm1 Hm2 Hm3 Hk1 Hq1 Hk2 Hq2 Hk3.
  rewrite !should_respond_cases, (str_eqb_neq Hs), Hm1, Hm2, Hm3,
    Hk1, Hq1, Hk2, Hq2, Hk3.
  unfold one_draw. eexists _, _, _, _.
  split; [reflexivity|]. split; [reflexivity|]. split; [reflexivity|].
  split; apply Qltb_mono; unfold Qle; simpl; lia.
Qed.

End Rules.

Lemma should_respond_question_draw_witness :
  should_respond ascii_lower (py "Lunch?") (py "alice") (world0 None None [])
  = one_draw 0.4 (world0 None None []).
Proof.
  apply should_respond_question_draw.
  - vm_compute. discriminate.
  - vm_compute. reflexivity.
  - vm_compute. reflexivity.
  - vm_compute. reflexivity.
Defined.

Lemma should_respond_general_draw_witness :
  should_respond ascii_lower (py "Lunch.") (py "alice") (world0 None None [])
  = one_draw 0.15 (world0 None None []).
Proof.
  apply should_respond_general_draw.
  - vm_compute. discriminate.
  - vm_compute. reflexivity.
  - vm_compute. reflexivity.
  - vm_compute. reflexivity.
Defined.

Lemma should_respond_nested_witness :
  exists b1 b2 b3 w',
    should_respond ascii_lower (py "Lunch.") (py "alice")
                   (world0 None None [3000000000000000%N]) = Some (b1, w') /\
    should_respond ascii_lower (py "Lunch?") (py "alice")
                   (world0 None None [3000000000000000%N]) = Some (b2, w') /\
    should_respond ascii_lower (py "Is it aware") (py "alice")
                   (world0 None None [3000000000000000%N]) = Some (b3, w') /\
    (b1 = true -> b2 = true) /\ (b2 = true -> b3 = true).
Proof.
  apply should_respond_nested.
  - vm_compute. discriminate.
  - vm_compute. reflexivity.
  - vm_compute. reflexivity.
  - vm_compute. reflexivity.
  - vm_compute. reflexivity.
  - vm_compute. reflexivity.
  - vm_compute. reflexivity.
  - vm_compute. reflexivity.
  - vm_compute. reflexivity.
Defined.

(* ================================================================== *)
(** * Response Formatter: what the output looks like *)

Lemma join_words_spaces (ws : list str) :
  Forall word ws ->
  Forall (fun c => isspace c = true -> c = 32%N) (join (py " ") ws).
Proof.
  induction 1 as [|u ws [_ Hu] Hws IH]; [constructor|].
  assert (Hu' : Forall (fun c => isspace c = true -> c = 32%N) u).
  { eapply Forall_impl; [|exact Hu]. intros c Hc Hs. congruence. }
  destruct ws as [|v ws]; [exact Hu'|].
  rewrite join_cons by discriminate.
  apply Forall_app. split; [exact Hu'|].
  apply Forall_app. split; [repeat constructor | exact IH].
Qed.

Lemma split_from_nil (s : str) :
  forall w, split_from w s = [] <->
            w = [] /\ Forall (fun c => isspace c = true) s.
Proof.
  induction s as [|c s IH]; intro w; simpl.
  - destruct w; simpl; split; try discriminate.
    + intros _. split; [reflexivity | constructor].
    + reflexivity.
    + intros [H _]. discriminate.
  - destruct (isspace c) eqn:E.
    + split.
      * intro H. apply app_eq_nil in H as [Hw Hs].
        apply IH in Hs as [_ Hs].
        destruct w; [|discriminate]. split; [reflexivity | now constructor].
      * intros [-> H]. inversion H; subst. simpl. apply IH. now split.
    + split.
      * intro H. apply IH in H as [H _]. destruct w; discriminate.
      * intros [_ H]. inversion H; subst. congruence.
Qed.

Lemma join_words_nil (ws : list str) :
  Forall word ws -> join (py " ") ws = [] -> ws = [].
Proof.
  destruct 1 as [|u ws [Hne _] Hws]; [reflexivity|].
  destruct ws as [|v ws].
  - simpl. intros ->. congruence.
  - rewrite join_cons by discriminate. intro H.
    apply app_eq_nil in H as [-> _]. congruence.
Qed.

Lemma collapse_nil (s : str) :
  collapse s = [] <-> Forall (fun c => isspace c = true) s.
Proof.
  unfold collapse, split. split.
  - intro H. apply join_words_nil in H; [|apply split_words].
    now apply split_from_nil in H.
  - intro H. assert (E : split_from [] s = []) by (apply split_from_nil; auto).
    unfold split in *. now rewrite E.
Qed.

Lemma join_split_from_length (s : str) :
  forall w, length (join (py " ") (split_from w s)) <= length w + length s.
Proof.
  induction s as [|c s IH]; intro w; simpl.
  - destruct w; simpl; lia.
  - destruct (isspace c).
    + specialize (IH []). simpl in IH.
      destruct w as [|a w]; [simpl; lia|].
      cbn [flush app]. destruct (split_from [] s) as [|v rest] eqn:E.
      * simpl. lia.
      * rewrite join_cons by discriminate.
        rewrite !length_app. change (length (py " ")) with 1. lia.
    + specialize (IH (w ++ [c])). rewrite length_app in IH. simpl in IH. lia.
Qed.

Lemma collapse_length (s : str) : length (collapse s) <= length s.
Proof. apply (join_split_from_length s []). Qed.

(** X5. Formatting is idempotent on every text, truncated or not: a
    formatted text is left as it is by a second pass. *)
Theorem format_irc_response_fixpoint (s : str) :
  format_irc_response (format_irc_response s) = format_irc_response s.
Proof. apply format_irc_response_idempotent. Qed.

(** X6. The formatted text is a sequence of non-empty words without
    whitespace, separated by single spaces; so the only whitespace it holds
    is the space character: no line feed, carriage return or tab reaches
    the channel. *)
Theorem format_irc_response_words (s : str) :
  (exists ws, Forall word ws /\ format_irc_response s = join (py " ") ws) /\
  Forall (fun c => isspace c = true -> c = 32%N) (format_irc_response s) /\
  ~ In 10%N (format_irc_response s) /\
  ~ In 13%N (format_irc_response s) /\
  ~ In 9%N (format_irc_response s).
Proof.
  assert (W : exists ws, Forall word ws /\
                         format_irc_response s = join (py " ") ws).
  { apply whitespace_normalized_words, format_irc_response_clean. }
  split; [exact W|].
  destruct W as [ws [Hws E]].
  assert (C : Forall (fun c => isspace c = true -> c = 32%N)
                     (format_irc_response s))
    by (rewrite E; now apply join_words_spaces).
  split; [exact C|].
  rewrite Forall_forall in C.
  repeat split; intro H; apply C in H; try discriminate H; reflexivity.
Qed.

(** X7. The formatted text is empty exactly when the input is empty or all
    whitespace. *)
Theorem format_irc_response_empty (s : str) :
  format_irc_response s = [] <-> Forall (fun c => isspace c = true) s.
Proof.
  rewrite format_irc_response_eq.
  destruct (Nat.ltb_spec 400 (length (collapse s))) as [H|H].
  - split.
    + intro E. apply app_eq_nil in E as [_ E]. discriminate.
    + intro A. apply collapse_nil in A. rewrite A in H. simpl in H. lia.
  - apply collapse_nil.
Qed.

(** X8. When the collapsed text fits in 400 characters nothing is lost:
    the words of the output are the words of the input, in order. *)
Theorem format_irc_response_keeps_words (s : str) :
  length (collapse s) <= 400 ->
  split (format_irc_response s) = split s.
Proof.
  intro H. rewrite format_irc_response_eq.
  apply Nat.ltb_ge in H. rewrite H.
  unfold collapse. apply split_join, split_words.
Qed.

(** X9. Formatting never makes a text longer. *)
Theorem format_irc_response_never_longer (s : str) :
  length (format_irc_response s) <= length s.
Proof.
  pose proof (collapse_length s) as Hc.
  rewrite format_irc_response_eq.
  destruct (Nat.ltb_spec 400 (length (collapse s))) as [H|H]; [|exact Hc].
  rewrite length_app, length_firstn. change (length ellipsis) with 3. lia.
Qed.

Lemma format_irc_response_keeps_words_witness :
  split (format_irc_response (py "  Do   you" ++ [10%N; 9%N] ++ py "dream? "))
  = split (py "  Do   you" ++ [10%N; 9%N] ++ py "dream? ").
Proof.
  apply format_irc_response_keeps_words. vm_compute. lia.
Defined.

(* ================================================================== *)
(** * Provider Adapter: what every response satisfies *)

Lemma fallback_chain_formatted (ps : list provider) (text : str) :
  snd (fallback_chain ps) = Some text ->
  exists content, text = format_irc_response content.
Proof.
  induction ps as [|p ps IH]; simpl; [discriminate|].
  destruct (answer p) as [[c|]|e]; simpl; auto.
  intros [= <-]. now exists c.
Qed.

Lemma responses_fit :
  forall r, In r responses -> length r <= 400 /\ whitespace_normalized r.
Proof.
  assert (H : forallb (fun r => (length r <=? 400) && str_eqb (collapse r) r)
                      responses = true) by (vm_compute; reflexivity).
  intros r Hr. rewrite forallb_forall in H. apply H in Hr.
  apply andb_true_iff in Hr as [Hl Hn].
  split; [now apply Nat.leb_le | now apply str_eqb_eq].
Qed.

Section Responses.

Variable lower : str -> str.

(** The generation, with what its text and its reads of the randomness
    source can be. *)
Lemma get_consciousness_response_fits (w : World) (message sender : str) :
  exists r g,
    get_consciousness_response lower message sender w
    = Some (r, mkWorld (self w) g
                 (trace w ++ fst (fallback_chain
                                    (providers_of (self w) message sender)))) /\
    length r <= 400 /\ whitespace_normalized r /\
    match snd (fallback_chain (providers_of (self w) message sender)) with
    | Some text => r = text /\ g = rand w
    | None => In r responses /\ g = snd (Random.next (rand w))
    end.
Proof.
  rewrite get_consciousness_response_chain. cbv zeta.
  destruct (snd (fallback_chain (providers_of (self w) message sender)))
    as [text|] eqn:E.
  - exists text, (rand w). split; [reflexivity|].
    destruct (fallback_chain_formatted _ E) as [c ->].
    split; [apply format_irc_response_length|].
    split; [apply format_irc_response_clean | split; reflexivity].
  - rewrite get_fallback_consciousness_response_pool.
    destruct (@choice_in _ (pool lower message) (rand w)
                (pool_nonempty lower message)) as [r [Hc Hin]].
    exists r, (snd (Random.next (rand w))).
    unfold random_choice, after. cbn [self rand trace]. rewrite Hc.
    apply pool_in_responses in Hin.
    split; [reflexivity|].
    split; [now apply responses_fit|].
    split; [now apply responses_fit | now split].
Qed.

(** X10. Whatever the backends return, the generation completes, leaves
    the bot as it was, and its text has at most 400 characters and is
    whitespace-normalized. *)
Theorem get_consciousness_response_bounded
    (w : World) (message sender : str) :
  exists r w',
    get_consciousness_response lower message sender w = Some (r, w') /\
    self w' = self w /\
    length r <= 400 /\
    whitespace_normalized r.
Proof.
  destruct (get_consciousness_response_fits w message sender)
    as (r & g & H & Hl & Hn & _).
  eexists _, _. split; [exact H|]. cbn [self]. repeat split; assumption.
Qed.

(** X11. A response that comes from a backend reads nothing from the
    randomness source; a canned response reads exactly one value.  In both
    cases the effects added are the backend calls and error lines of the
    chain, and none of them is a send. *)
Theorem get_consciousness_response_randomness
    (w : World) (message sender : str) :
  exists r w',
    get_consciousness_response lower message sender w = Some (r, w') /\
    (exists t, trace w' = trace w ++ t /\ filter is_send t = []) /\
    (snd (fallback_chain (providers_of (self w) message sender)) <> None ->
     rand w' = rand w) /\
    (snd (fallback_chain (providers_of (self w) message sender)) = None ->
     rand w' = snd (Random.next (rand w)) /\ In r responses).
Proof.
  destruct (get_consciousness_response_fits w message sender)
    as (r & g & H & _ & _ & Hc).
  eexists _, _. split; [exact H|]. cbn [rand trace].
  split.
  { eexists. split; [reflexivity|].
    apply fallback_chain_no_send, providers_are_calls. }
  destruct (snd (fallback_chain (providers_of (self w) message sender))).
  - destruct Hc as [_ ->]. split; [reflexivity | discriminate].
  - destruct Hc as [Hin ->]. split; [congruence | now split].
Qed.

End Responses.

Lemma get_consciousness_response_randomness_witness :
  exists r w',
    get_consciousness_response ascii_lower (py "hello") (py "alice")
                               cloud_only_world = Some (r, w') /\
    rand w' = rand cloud_only_world.
Proof.
  destruct (get_consciousness_response_randomness ascii_lower
              cloud_only_world (py "hello") (py "alice"))
    as (r & w' & H & _ & Hr & _).
  exists r, w'. split; [exact H|]. apply Hr. vm_compute. discriminate.
Defined.

(* ================================================================== *)
(** * The two message handlers: what they send *)

Lemma random_unit_interval (g : Random.source) :
  (0 <= fst (Random.random g))%Q /\ (fst (Random.random g) <= 1)%Q.
Proof.
  unfold Random.random, Random.next. cbn [fst].
  assert (H : (Random.tape g (Random.cursor g) mod Random.two53
               < Random.two53)%N) by (apply N.mod_lt; discriminate).
  set (k := (Random.tape g (Random.cursor g) mod Random.two53)%N) in *.
  clearbody k. unfold Random.two53 in *. unfold Qle. cbn [Qnum Qden].
  split; lia.
Qed.

Lemma reply_delay_range (g : Random.source) :
  (1.5 <= 1.0 + fst (Random.uniform 0.5 2.0 g))%Q /\
  (1.0 + fst (Random.uniform 0.5 2.0 g) <= 3)%Q.
Proof.
  destruct (random_unit_interval g) as [H0 H1].
  unfold Random.uniform.
  destruct (Random.random g) as [u g']. cbn [fst] in *.
  split; lra.
Qed.

Section Replies.

Variable lower : str -> str.

(** X12. A public message of the bot itself is recorded in the memory and
    nothing else happens: no backend is called, nothing is printed or
    sent, no timer is started and no random value is read. *)
Theorem on_pubmsg_from_self (w : World) (message : str) (now : Q) :
  on_pubmsg lower message (nickname (self w)) now w
  = Some (tt, mkWorld (set_conversation_memory
                         (remember (self w)
                                   (mkMessage (nickname (self w)) message now))
                         (self w))
                      (rand w) (trace w)).
Proof.
  destruct w as [me g tr]. cbv [on_pubmsg]. run.
  set (me' := set_conversation_memory _ me).
  cbv [should_respond]. run.
  change (nickname me') with (nickname me). rewrite str_eqb_refl.
  reflexivity.
Qed.

(** X13. A public message always ends up in the memory, and the handler
    never sends at once: at most one timer is started.  The reply it
    schedules goes to the bot's channel, after a delay between 1.5 and 3
    seconds, and its text is not empty, has at most 400 characters and is
    whitespace-normalized. *)
Theorem on_pubmsg_reply (w : World) (message sender : str) (now : Q) :
  exists w' t,
    on_pubmsg lower message sender now w = Some (tt, w') /\
    self w' = set_conversation_memory
                (remember (self w) (mkMessage sender message now)) (self w) /\
    trace w' = trace w ++ t /\
    (filter is_send t = [] \/
     exists delay r,
       filter is_send t = [TimerStart delay (channel (self w)) r] /\
       (1.5 <= delay)%Q /\ (delay <= 3)%Q /\
       r <> [] /\ length r <= 400 /\ whitespace_normalized r).
Proof.
  destruct w as [me g tr]. cbv [on_pubmsg]. run.
  set (me' := set_conversation_memory _ me).
  change (set_conversation_memory
            (remember me (mkMessage sender message now)) me) with me'.
  destruct (should_respond_total lower (mkWorld me' g tr) message sender)
    as (b & g1 & Hs).
  cbn [self trace] in Hs. rewrite Hs. destruct b.
  - destruct (get_consciousness_response_fits lower (mkWorld me' g1 tr)
                message sender) as (r & g2 & Hr & Hl & Hn & _).
    cbn [self trace] in Hr. rewrite Hr.
    change (providers_of me' message sender)
      with (providers_of me message sender) in *.
    assert (Hno : filter is_send
                    (fst (fallback_chain (providers_of me message sender)))
                  = [])
      by apply fallback_chain_no_send, providers_are_calls.
    destruct (truthy r) eqn:T.
    + destruct (reply_delay_range g2) as [Hlo Hhi].
      unfold random_uniform. cbn [self rand trace].
      destruct (Random.uniform 0.5 2.0 g2) as [u g3]. cbn [fst] in *.
      run. rewrite <- app_assoc.
      eexists _, _. split; [reflexivity|]. cbn [self trace].
      split; [reflexivity|]. split; [reflexivity|]. right.
      exists (1.0 + u)%Q, r. rewrite filter_app, Hno.
      split; [reflexivity|]. split; [exact Hlo|]. split; [exact Hhi|].
      split; [intros ->; discriminate | split; assumption].
    + eexists _, _. split; [reflexivity|]. cbn [self trace].
      split; [reflexivity|]. split; [reflexivity|]. left. exact Hno.
  - eexists _, []. split; [reflexivity|]. cbn [self trace].
    split; [reflexivity|]. split; [now rewrite app_nil_r | now left].
Qed.

(** X14. A private message is never recorded and is answered without any
    decision.  The text is what [get_consciousness_response] returns for
    the message in the world as it is; the handler leaves the world as the
    generation left it (the bot itself unchanged) and, exactly when that
    text is not empty, adds one message to the sender, at once: the label
    followed by the text, at most 423 characters.  With every provider
    failed or absent the text is a canned response, so the reply is always
    made. *)
Theorem on_privmsg_reply (w : World) (message sender : str) :
  exists r w1,
    get_consciousness_response lower message sender w = Some (r, w1) /\
    self w1 = self w /\
    on_privmsg lower message sender w
    = Some (tt, if truthy r
                then after [Privmsg sender
                                    (py "🧠 ConsciousnessBridge: " ++ r)] w1
                else w1) /\
    length (py "🧠 ConsciousnessBridge: " ++ r) <= 423 /\
    (Forall failed (providers_of (self w) message sender) ->
     truthy r = true /\ In r responses).
Proof.
  destruct (get_consciousness_response_fits lower w message sender)
    as (r & g & Hr & Hl & _ & Hc).
  eexists r, _. split; [exact Hr|]. cbn [self].
  split; [reflexivity|].
  split.
  { unfold on_privmsg, bind. rewrite Hr.
    destruct (truthy r); reflexivity. }
  split.
  { rewrite length_app.
    change (length (py "🧠 ConsciousnessBridge: ")) with 23. lia. }
  intro Hf. rewrite (fallback_chain_failed Hf) in Hc.
  destruct Hc as [Hin _]. split; [|exact Hin].
  apply responses_truthy in Hin. destruct r; [congruence | reflexivity].
Qed.

End Replies.

Lemma on_privmsg_reply_witness :
  exists r w1,
    get_consciousness_response ascii_lower (py "hi") (py "alice")
                               (world0 None None [21%N]) = Some (r, w1) /\
    on_privmsg ascii_lower (py "hi") (py "alice") (world0 None None [21%N])
    = Some (tt, after [Privmsg (py "alice")
                               (py "🧠 ConsciousnessBridge: " ++ r)] w1) /\
    In r responses.
Proof.
  destruct (on_privmsg_reply ascii_lower (world0 None None [21%N])
              (py "hi") (py "alice"))
    as (r & w1 & Hg & _ & Hp & _ & Hf).
  destruct Hf as [Htr Hin]; [constructor|].
  rewrite Htr in Hp.
  exists r, w1. split; [exact Hg|]. split; [exact Hp | exact Hin].
Defined.

(* ================================================================== *)
(** * Heartbeat Loop: whole runs *)

Section HeartbeatRuns.

Variable fsub : Q -> Q -> Q.
Variable fmul : Q -> Q -> Q.

Lemma heartbeat_iteration_on_time
    (w : World) (current_time : Q) (connected : bool) :
  (fsub current_time (last_heartbeat (self w))
   <= fmul (heartbeat_interval (self w)) 1.5)%Q ->
  heartbeat_iteration fsub fmul current_time connected w
  = Some (tt, mkWorld (set_last_heartbeat current_time (self w)) (rand w)
                      (trace w ++ [Sleep (heartbeat_interval (self w))])).
Proof.
  intro H. destruct w as [me g tr]. cbn [self rand trace] in *.
  cbv [heartbeat_iteration]. run.
  assert (E : Qltb (fmul (heartbeat_interval me) 1.5)
                   (fsub current_time (last_heartbeat me)) = false).
  { unfold Qltb. apply negb_false_iff. now apply Qle_bool_iff. }
  rewrite E. reflexivity.
Qed.

(** A turn that completes changes nothing of the bot but the tick and
    sends at most once; a turn completes whenever the connection is up. *)
Lemma heartbeat_iteration_effects
    (w : World) (current_time : Q) (connected : bool) :
  (connected = true ->
   heartbeat_iteration fsub fmul current_time connected w <> None) /\
  (forall w',
      heartbeat_iteration fsub fmul current_time connected w = Some (tt, w') ->
      exists t,
        self w' = set_last_heartbeat current_time (self w) /\
        trace w' = trace w ++ t /\
        length (filter is_send t) <= 1).
Proof.
  destruct w as [me g tr]. cbv [heartbeat_iteration]. run.
  destruct (Qltb (fmul (heartbeat_interval me) 1.5)
                 (fsub current_time (last_heartbeat me))).
  - run. cbv [Random.random Random.next].
    destruct (Qltb _ 0.1).
    + run.
      destruct (@choice_in _ pulses
                  (Random.mkSource (Random.tape g) (S (Random.cursor g)))
                  pulses_nonempty) as [p [Hc _]].
      rewrite Hc. destruct connected; run.
      * split; [discriminate|]. intros w' [= <-]. cbn [self trace].
        repeat rewrite <- app_assoc.
        eexists. split; [reflexivity|]. split; [reflexivity | simpl; lia].
      * split; [discriminate | discriminate].
    + run. split; [discriminate|]. intros w' [= <-]. cbn [self trace].
      repeat rewrite <- app_assoc.
      eexists. split; [reflexivity|]. split; [reflexivity | simpl; lia].
  - run. split; [discriminate|]. intros w' [= <-]. cbn [self trace].
    eexists. split; [reflexivity|]. split; [reflexivity | simpl; lia].
Qed.

(** X15. As long as the loop is woken on time (at each reading the time
    since the tick recorded before it, as the code computes it, is at most
    1.5 intervals), it sends nothing, prints nothing and reads no random
    value, whatever the state of the connection: every turn is a sleep and
    an update of the tick. *)
Theorem digital_heartbeat_on_time (wakes : list (Q * bool)) :
  forall w : World,
    on_time fsub fmul (heartbeat_interval (self w)) (last_heartbeat (self w))
            (map fst wakes) ->
    exists w',
      digital_heartbeat fsub fmul wakes w = Some (tt, w') /\
      rand w' = rand w /\
      trace w' = trace w
                 ++ repeat (Sleep (heartbeat_interval (self w))) (length wakes) /\
      last_heartbeat (self w')
      = last (map fst wakes) (last_heartbeat (self w)).
Proof.
  induction wakes as [|[t c] wakes IH]; intros w H.
  - exists w. cbn. rewrite app_nil_r. repeat split; reflexivity.
  - destruct H as [Ht Hrest].
    pose proof (@heartbeat_iteration_on_time w t c Ht) as E.
    set (w1 := mkWorld (set_last_heartbeat t (self w)) (rand w)
                       (trace w ++ [Sleep (heartbeat_interval (self w))])) in *.
    destruct (IH w1 Hrest) as (w' & Hrun & Hr & Htr & Hl).
    exists w'. cbn [digital_heartbeat]. unfold bind at 1. rewrite E.
    split; [exact Hrun|]. split; [exact Hr|].
    split.
    + rewrite Htr. subst w1. cbn [trace self set_last_heartbeat
                                  heartbeat_interval length repeat].
      now rewrite <- app_assoc.
    + rewrite Hl. subst w1. cbn [self set_last_heartbeat last_heartbeat].
      cbn [map fst]. destruct (map fst wakes) as [|q clock]; [reflexivity|].
      change (last (t :: q :: clock) (last_heartbeat (self w)))
        with (last (q :: clock) (last_heartbeat (self w))).
      apply last_cons_any.
Qed.

(** X16. However long the loop runs and whatever the clock reads, as long
    as the connection is up at every turn the loop does not raise; and
    whenever it completes its turns, it has sent at most one message per
    turn and has changed of the bot only the recorded tick, which is the
    last time read: the memory, the nickname, the channel and the interval
    are left alone. *)
Theorem digital_heartbeat_frame (wakes : list (Q * bool)) :
  forall w : World,
    (Forall (fun wake => snd wake = true) wakes ->
     digital_heartbeat fsub fmul wakes w <> None) /\
    (forall w',
        digital_heartbeat fsub fmul wakes w = Some (tt, w') ->
        exists t,
          trace w' = trace w ++ t /\
          length (filter is_send t) <= length wakes /\
          last_heartbeat (self w')
          = last (map fst wakes) (last_heartbeat (self w)) /\
          conversation_memory (self w') = conversation_memory (self w) /\
          nickname (self w') = nickname (self w) /\
          channel (self w') = channel (self w) /\
          heartbeat_interval (self w') = heartbeat_interval (self w)).
Proof.
  induction wakes as [|[t c] wakes IH]; intro w.
  - split; [discriminate|]. intros w' [= <-]. exists [].
    cbn. rewrite app_nil_r. repeat split; auto.
  - destruct (heartbeat_iteration_effects w t c) as [Hup Hdone].
    cbn [digital_heartbeat]. unfold bind at 1 2.
    destruct (heartbeat_iteration fsub fmul t c w) as [[[] w1]|] eqn:E.
    + destruct (Hdone w1 eq_refl) as (t1 & Hs & Ht & Hn).
      destruct (IH w1) as [IHup IHdone]. split.
      * intro H. inversion H; subst. now apply IHup.
      * intros w' Hrun.
        destruct (IHdone w' Hrun)
          as (t2 & Htr & Hn2 & Hl & Hm & Hnk & Hch & Hi).
        exists (t1 ++ t2).
        split; [rewrite Htr, Ht; now rewrite app_assoc|].
        split; [rewrite filter_app, length_app; cbn [length]; lia|].
        split.
        { rewrite Hl, Hs. cbn [set_last_heartbeat last_heartbeat map fst].
          destruct (map fst wakes) as [|q clock]; [reflexivity|].
          change (last (t :: q :: clock) (last_heartbeat (self w)))
            with (last (q :: clock) (last_heartbeat (self w))).
          apply last_cons_any. }
        rewrite Hm, Hnk, Hch, Hi, Hs. repeat split; reflexivity.
    + split; [|discriminate].
      intro H. inversion H as [|? ? Hc _]; subst. cbn [snd] in Hc.
      exfalso. now apply Hup.
Qed.

End HeartbeatRuns.

Lemma digital_heartbeat_on_time_witness :
  exists w',
    digital_heartbeat Qminus Qmult
      [(300, false); (600, true); (1050, false)]%Q (world0 None None [5%N])
    = Some (tt, w') /\
    rand w' = rand (world0 None None [5%N]) /\
    trace w' = [Sleep 300; Sleep 300; Sleep 300].
Proof.
  destruct (@digital_heartbeat_on_time Qminus Qmult
              [(300, false); (600, true); (1050, false)]%Q
              (world0 None None [5%N])) as (w' & H & Hr & Ht & _).
  - cbn. repeat split; unfold Qle; cbn; lia.
  - exists w'. split; [exact H|]. split; [exact Hr | exact Ht].
Defined.

Lemma digital_heartbeat_frame_witness :
  digital_heartbeat Qminus Qmult [(500, true); (1200, true)]%Q
                    (world0 None None [5%N; 2%N; 9%N; 1%N]) <> None.
Proof.
  refine (proj1 (@digital_heartbeat_frame Qminus Qmult
                   [(500, true); (1200, true)]%Q
                   (world0 None None [5%N; 2%N; 9%N; 1%N])) _).
  repeat constructor.
Defined.

(* ================================================================== *)
(** * Start-up: the cloud client and the local endpoint *)

(** X17. The cloud client: with a non-empty Together key the Together
    endpoint and key are used, whatever the OpenAI key; otherwise a
    non-empty OpenAI key gives the default endpoint; a missing or empty key
    counts as absent, and with both absent there is no client.  The model
    named in the requests agrees with the endpoint chosen here. *)
Theorem setup_openai_backend (me : Bot) (openai_key : option str) :
  (forall cfg,
      fst (setup_openai (together_key me) openai_key) = Some cfg ->
      (truthy_opt (together_key me) = true /\
       together_key me = Some (api_key cfg) /\
       base_url cfg = Some together_url /\
       cloud_model me = py "mistralai/Mixtral-8x7B-Instruct-v0.1") \/
      (truthy_opt (together_key me) = false /\
       truthy_opt openai_key = true /\
       openai_key = Some (api_key cfg) /\
       base_url cfg = None /\
       cloud_model me = py "gpt-3.5-turbo")) /\
  (fst (setup_openai (together_key me) openai_key) = None <->
   truthy_opt (together_key me) = false /\ truthy_opt openai_key = false).
Proof.
  unfold setup_openai, cloud_model.
  destruct (together_key me) as [[|c k]|]; cbn [truthy_opt truthy];
    try (split; [intros cfg [= <-]; left; repeat split; reflexivity
                | split; [discriminate | intros [H _]; discriminate]]);
    destruct openai_key as [[|c' k']|]; cbn [truthy_opt truthy fst];
    split;
    try (intros cfg [= <-]; right; repeat split; reflexivity);
    try (intros cfg H; discriminate H);
    try (split; [discriminate | intros [_ H]; discriminate]);
    try (split; [intros _; split; reflexivity | reflexivity]).
Qed.

Section SetupFacts.

Variable repr_models : list str -> str.

Lemma setup_ollama_loop_skip (a : attempt) (rest : list attempt)
    (local_model e : str) :
  probe a = Unreachable e ->
  setup_ollama_loop repr_models (a :: rest) local_model
  = (fst (fst (setup_ollama_loop repr_models rest local_model)),
     snd (fst (setup_ollama_loop repr_models rest local_model)),
     ListModels (attempt_name a)
       :: Did (Print (py "❌ Ollama " ++ attempt_name a
                        ++ py " failed: " ++ e))
       :: snd (setup_ollama_loop repr_models rest local_model)).
Proof.
  intro H. cbn [setup_ollama_loop]. rewrite H.
  destruct (setup_ollama_loop repr_models rest local_model) as [[f m] t].
  reflexivity.
Qed.

(** X18. The first endpoint whose probe succeeds is adopted: its client
    is returned, every endpoint before it was probed once and found
    unreachable, and no endpoint after it is probed at all. *)
Theorem setup_ollama_first_reachable
    (before rest : list attempt) (a : attempt)
    (available_models : list str) (local_model : str) :
  Forall unreachable before ->
  probe a = Listed available_models ->
  fst (fst (setup_ollama_loop repr_models (before ++ a :: rest) local_model))
  = Some (attempt_client a) /\
  filter is_probe
    (snd (setup_ollama_loop repr_models (before ++ a :: rest) local_model))
  = map (fun x => ListModels (attempt_name x)) (before ++ [a]).
Proof.
  intros Hb Ha. induction Hb as [|b before Hu _ [IH1 IH2]].
  - cbn [app setup_ollama_loop]. rewrite Ha.
    destruct (negb (str_in local_model available_models)
              && match available_models with [] => false | _ => true end);
      split; reflexivity.
  - unfold unreachable in Hu. destruct (probe b) as [|e] eqn:E; [destruct Hu|].
    cbn [app]. rewrite (@setup_ollama_loop_skip _ _ _ _ E). cbn [fst snd].
    split; [exact IH1|]. cbn [filter is_probe map]. now rewrite IH2.
Qed.

(** X19. The model left by an adoption.  If the endpoint lists the
    configured model, it is kept; if it lists others only, the first listed
    replaces it, so the model the bot will ask for is one the endpoint has;
    if it lists none at all, the configured model is kept as it is. *)
Theorem setup_ollama_model
    (before rest : list attempt) (a : attempt)
    (available_models : list str) (local_model : str) :
  Forall unreachable before ->
  probe a = Listed available_models ->
  let model :=
    snd (fst (setup_ollama_loop repr_models (before ++ a :: rest)
                                local_model)) in
  (str_in local_model available_models = true -> model = local_model) /\
  (available_models = [] -> model = local_model) /\
  (str_in local_model available_models = false ->
   available_models <> [] ->
   model = hd [] available_models) /\
  (available_models <> [] -> str_in model available_models = true).
Proof.
  intros Hb Ha. cbv zeta. induction Hb as [|b before Hu _ IH].
  - cbn [app setup_ollama_loop]. rewrite Ha.
    destruct (str_in local_model available_models) eqn:Hin; cbn [negb andb].
    + cbn [fst snd]. repeat split; try congruence; auto.
    + destruct available_models as [|m ms]; cbn [fst snd hd].
      * repeat split; congruence.
      * repeat split; try congruence.
        intros _. unfold str_in. cbn [existsb]. now rewrite str_eqb_refl.
  - unfold unreachable in Hu. destruct (probe b) as [|e] eqn:E; [destruct Hu|].
    cbn [app]. rewrite (@setup_ollama_loop_skip _ _ _ _ E). cbn [fst snd].
    exact IH.
Qed.

(** X20. There is no local client exactly when every endpoint is
    unreachable; then the configured model is kept and every endpoint was
    probed exactly once, in the order of the list. *)
Theorem setup_ollama_none (attempts : list attempt) (local_model : str) :
  (fst (fst (setup_ollama_loop repr_models attempts local_model)) = None <->
   Forall unreachable attempts) /\
  (Forall unreachable attempts ->
   snd (fst (setup_ollama_loop repr_models attempts local_model))
   = local_model /\
   filter is_probe (snd (setup_ollama_loop repr_models attempts local_model))
   = map (fun x => ListModels (attempt_name x)) attempts).
Proof.
  induction attempts as [|a rest [IH1 IH2]].
  - cbn. split; [split; [constructor | reflexivity] | intros _; now split].
  - destruct (probe a) as [models|e] eqn:E.
    + cbn [setup_ollama_loop]. rewrite E.
      assert (Hn : ~ Forall unreachable (a :: rest)).
      { intro H. inversion H as [|? ? Hu _]; subst.
        unfold unreachable in Hu. now rewrite E in Hu. }
      destruct (negb (str_in local_model models)
                && match models with [] => false | _ => true end);
        cbn [fst snd]; (split; [split; [discriminate | contradiction]
                               | contradiction]).
    + rewrite (@setup_ollama_loop_skip _ _ _ _ E). cbn [fst snd].
      assert (Hu : unreachable a) by (unfold unreachable; now rewrite E).
      split.
      * rewrite IH1. split.
        -- intro H. now constructor.
        -- intro H. now inversion H.
      * intro H. inversion H as [|? ? _ Hr]; subst.
        destruct (IH2 Hr) as [Hm Hp]. split; [exact Hm|].
        cbn [filter is_probe map]. now rewrite Hp.
Qed.

End SetupFacts.

Lemma setup_openai_backend_witness :
  cloud_model (init (py "#c") (py "Bot") (py "m") (Some (py "tk"))
                    None None 0)
  = py "mistralai/Mixtral-8x7B-Instruct-v0.1".
Proof.
  destruct (setup_openai_backend
              (init (py "#c") (py "Bot") (py "m") (Some (py "tk")) None None 0)
              (Some (py "ok"))) as [H _].
  destruct (H (mkCloud (py "tk") (Some together_url))) as [H1|H2].
  - reflexivity.
  - apply H1.
  - destruct H2 as [H2 _]. discriminate H2.
Defined.

Lemma setup_ollama_first_reachable_witness :
  filter is_probe (snd (setup_ollama plain_repr
      refusing refusing (answering (py "ok")) refusing
      (Unreachable (py "refused")) (Unreachable (py "refused"))
      (Listed [py "llama3:8b"; py "phi3:mini"]) (Unreachable (py "refused"))
      (py "mistral:latest")))
  = [ ListModels (py "localhost:11434"); ListModels (py "localhost:11434");
      ListModels (py "ollama:11434") ].
Proof.
  refine (proj2 (@setup_ollama_first_reachable plain_repr
    [ mkAttempt (py "localhost:11434") refusing (Unreachable (py "refused"));
      mkAttempt (py "localhost:11434") refusing (Unreachable (py "refused")) ]
    [ mkAttempt (py "host.docker.internal:11434") refusing
                (Unreachable (py "refused")) ]
    (mkAttempt (py "ollama:11434") (answering (py "ok"))
               (Listed [py "llama3:8b"; py "phi3:mini"]))
    [py "llama3:8b"; py "phi3:mini"] (py "mistral:latest") _ _)).
  - repeat constructor.
  - reflexivity.
Defined.

Lemma setup_ollama_model_witness :
  snd (fst (setup_ollama plain_repr
      refusing refusing (answering (py "ok")) refusing
      (Unreachable (py "refused")) (Unreachable (py "refused"))
      (Listed [py "llama3:8b"; py "phi3:mini"]) (Unreachable (py "refused"))
      (py "mistral:latest")))
  = py "llama3:8b".
Proof.
  destruct (@setup_ollama_model plain_repr
    [ mkAttempt (py "localhost:11434") refusing (Unreachable (py "refused"));
      mkAttempt (py "localhost:11434") refusing (Unreachable (py "refused")) ]
    [ mkAttempt (py "host.docker.internal:11434") refusing
                (Unreachable (py "refused")) ]
    (mkAttempt (py "ollama:11434") (answering (py "ok"))
               (Listed [py "llama3:8b"; py "phi3:mini"]))
    [py "llama3:8b"; py "phi3:mini"] (py "mistral:latest"))
    as (_ & _ & H & _).
  - repeat constructor.
  - reflexivity.
  - apply H; [vm_compute; reflexivity | discriminate].
Defined.

Lemma setup_ollama_none_witness :
  snd (fst (setup_ollama plain_repr refusing refusing refusing refusing
      (Unreachable (py "a")) (Unreachable (py "b"))
      (Unreachable (py "c")) (Unreachable (py "d")) (py "mistral:latest")))
  = py "mistral:latest".
Proof.
  refine (proj1 (proj2 (@setup_ollama_none plain_repr
    (connection_attempts refusing refusing refusing refusing
       (Unreachable (py "a")) (Unreachable (py "b"))
       (Unreachable (py "c")) (Unreachable (py "d")))
    (py "mistral:latest")) _)).
  repeat constructor.
Defined.

(* ================================================================== *)
(** * Nickname collisions *)

Example str_of_int_42 : str_of_int 42 = py "42".
Proof. reflexivity. Qed.

Lemma str_of_int_two_digits (n : N) :
  (10 <= n <= 99)%N ->
  str_of_int n = [(48 + n / 10)%N; (48 + n mod 10)%N].
Proof.
  intro H.
  assert (C : forallb (fun i => str_eqb (str_of_int (N.of_nat i))
                                  [(48 + N.of_nat i / 10)%N;
                                   (48 + N.of_nat i mod 10)%N])
                      (seq 10 90) = true) by (vm_compute; reflexivity).
  rewrite forallb_forall in C.
  specialize (C (N.to_nat n)). rewrite N2Nat.id in C.
  apply str_eqb_eq, C, in_seq. lia.
Qed.

(** One collision, as a step. *)
Lemma on_nicknameinuse_step (me : Bot) (g : Random.source) :
  exists d1 d2,
    on_nicknameinuse me g
    = Some (set_nickname (nickname me ++ py "_" ++ [d1; d2]) me,
            snd (Random.next g),
            [ Nick (nickname me ++ py "_" ++ [d1; d2]);
              Did (Print (py "🔄 Nickname changed to "
                            ++ nickname me ++ py "_" ++ [d1; d2])) ]) /\
    (49 <= d1 <= 57)%N /\ (48 <= d2 <= 57)%N.
Proof.
  unfold on_nicknameinuse, randint.
  change (99 <? 10)%N with false. cbv iota.
  unfold Random.next. cbn [snd].
  change (99 - 10 + 1)%N with 90%N.
  assert (Hk : (Random.tape g (Random.cursor g) mod 90 < 90)%N)
    by (apply N.mod_lt; discriminate).
  set (m := (Random.tape g (Random.cursor g) mod 90)%N) in *. clearbody m.
  set (n := (10 + m)%N).
  assert (Hn : (10 <= n <= 99)%N) by (subst n; lia).
  clearbody n.
  rewrite (str_of_int_two_digits Hn).
  exists (48 + n / 10)%N, (48 + n mod 10)%N.
  assert (Hq : (1 <= n / 10 <= 9)%N).
  { split.
    - apply N.div_le_lower_bound; lia.
    - apply N.lt_succ_r. apply N.Div0.div_lt_upper_bound; lia. }
  assert (Hr : (n mod 10 < 10)%N) by (apply N.mod_lt; discriminate).
  split; [reflexivity|].
  set (q := (n / 10)%N) in *. set (r := (n mod 10)%N) in *.
  clearbody q r. split; lia.
Qed.

(** X21. A nickname collision always yields a new nickname: the current
    one, an underscore and two decimal digits, the first of them not zero.
    That nickname is sent to the server and becomes the bot's own; one
    random value is read and nothing else of the bot changes. *)
Theorem on_nicknameinuse_suffix (me : Bot) (g : Random.source) :
  exists d1 d2,
    let new_nick := nickname me ++ py "_" ++ [d1; d2] in
    on_nicknameinuse me g
    = Some (set_nickname new_nick me, snd (Random.next g),
            [ Nick new_nick;
              Did (Print (py "🔄 Nickname changed to " ++ new_nick)) ]) /\
    is_digit d1 = true /\ is_digit d2 = true /\ d1 <> 48%N /\
    new_nick <> nickname me.
Proof.
  destruct (on_nicknameinuse_step me g) as (d1 & d2 & E & H1 & H2).
  exists d1, d2. cbv zeta. split; [exact E|].
  split; [unfold is_digit; apply andb_true_iff; split; apply N.leb_le; lia|].
  split; [unfold is_digit; apply andb_true_iff; split; apply N.leb_le; lia|].
  split; [lia|].
  intro C. apply (f_equal (@length _)) in C.
  rewrite length_app in C. simpl in C. lia.
Qed.

(** X22. Collisions in a row pile up: each one extends the nickname in
    use, not the configured one, by three characters.  After [n] of them
    the nickname is the first one followed by [3 * n] characters, [n]
    nicknames were sent to the server, and the memory is as it was. *)
Theorem nickname_collisions_grow (n : nat) :
  forall (me : Bot) (g : Random.source),
    exists me' g' t suffix,
      nickname_collisions n me g = Some (me', g', t) /\
      nickname me' = nickname me ++ suffix /\
      length suffix = 3 * n /\
      length (filter (fun a => match a with Nick _ => true | _ => false end) t)
      = n /\
      conversation_memory me' = conversation_memory me /\
      channel me' = channel me.
Proof.
  induction n as [|n IH]; intros me g.
  - exists me, g, [], []. cbn. rewrite app_nil_r. repeat split; reflexivity.
  - destruct (on_nicknameinuse_step me g) as (d1 & d2 & E & _).
    cbn [nickname_collisions]. rewrite E.
    destruct (IH (set_nickname (nickname me ++ py "_" ++ [d1; d2]) me)
                 (snd (Random.next g)))
      as (me' & g' & t & suffix & Hrun & Hn & Hl & Hc & Hm & Hch).
    rewrite Hrun. eexists _, _, _, (py "_" ++ [d1; d2] ++ suffix).
    split; [reflexivity|].
    split; [rewrite Hn; cbn [nickname set_nickname];
            now rewrite <- !app_assoc|].
    split; [rewrite !length_app, Hl; simpl; lia|].
    split; [rewrite filter_app, length_app, Hc; reflexivity|].
    split; [exact Hm | exact Hch].
Qed.

Section Identity.

Variable lower : str -> str.

(** X23. After a collision the bot's identity is the new nickname: it
    never answers a message sent under the new nickname, the nickname it
    gave up is no longer its own, and whoever speaks under that old
    nickname and names the new one is answered like anyone else. *)
Theorem on_nicknameinuse_identity
    (me : Bot) (g : Random.source) (tr : list effect) (message : str) :
  exists me' g' t,
    on_nicknameinuse me g = Some (me', g', t) /\
    nickname me <> nickname me' /\
    should_respond lower message (nickname me') (mkWorld me' g' tr)
    = Some (false, mkWorld me' g' tr) /\
    (contains (lower (nickname me')) (lower message) = true ->
     should_respond lower message (nickname me) (mkWorld me' g' tr)
     = Some (true, mkWorld me' g' tr)).
Proof.
  destruct (on_nicknameinuse_step me g) as (d1 & d2 & E & _).
  eexists _, _, _. split; [exact E|]. cbn [nickname set_nickname].
  assert (Hne : nickname me <> nickname me ++ py "_" ++ [d1; d2]).
  { intro C. apply (f_equal (@length _)) in C.
    rewrite length_app in C. simpl in C. lia. }
  split; [exact Hne|].
  rewrite !should_respond_cases. cbn [self nickname set_nickname].
  rewrite str_eqb_refl, (str_eqb_neq Hne).
  split; [reflexivity|]. intros ->. reflexivity.
Qed.

(** X24. A mention by someone else always gets a reply scheduled, with or
    without a working backend, unless a backend answered with text that
    collapses to nothing: exactly one timer is started, for the bot's
    channel, and its text is the generated response. *)
Theorem on_pubmsg_mention_answered
    (w : World) (message sender : str) (now : Q) :
  sender <> nickname (self w) ->
  contains (lower (nickname (self w))) (lower message) = true ->
  snd (fallback_chain (providers_of (self w) message sender)) <> Some [] ->
  exists w' t delay r,
    on_pubmsg lower message sender now w = Some (tt, w') /\
    trace w' = trace w ++ t /\
    filter is_send t = [TimerStart delay (channel (self w)) r] /\
    r <> [] /\
    match snd (fallback_chain (providers_of (self w) message sender)) with
    | Some text => r = text
    | None => In r responses
    end.
Proof.
  intros Hs Hm Hne. destruct w as [me g tr]. cbn [self rand trace] in *.
  cbv [on_pubmsg]. run.
  set (me' := set_conversation_memory _ me).
  rewrite should_respond_cases. cbn [self].
  change (nickname me') with (nickname me).
  rewrite (str_eqb_neq Hs), Hm.
  destruct (get_consciousness_response_total lower (mkWorld me' g tr)
              message sender) as (r & g2 & Hr & Hiff).
  destruct (get_consciousness_response_fits lower (mkWorld me' g tr)
              message sender) as (r' & g2' & Hr' & _ & _ & Hc).
  rewrite Hr in Hr'. injection Hr' as <- <-.
  cbn [self trace] in Hr, Hiff, Hc.
  change (providers_of me' message sender)
    with (providers_of me message sender) in *.
  rewrite Hr.
  assert (Hrne : r <> []) by (intro C; apply Hne, Hiff, C).
  assert (Hno : filter is_send
                  (fst (fallback_chain (providers_of me message sender)))
                = [])
    by apply fallback_chain_no_send, providers_are_calls.
  destruct r as [|c r]; [congruence|]. cbn [truthy].
  unfold random_uniform. cbn [self rand trace].
  destruct (Random.uniform 0.5 2.0 g2) as [u g3].
  run. rewrite <- app_assoc.
  eexists _, _, (1.0 + u)%Q, (c :: r). split; [reflexivity|]. cbn [trace].
  split; [reflexivity|].
  split; [now rewrite filter_app, Hno|].
  split; [exact Hrne|].
  destruct (snd (fallback_chain (providers_of me message sender)));
    apply Hc.
Qed.

End Identity.


Lemma on_pubmsg_mention_answered_witness :
  exists w' t delay r,
    on_pubmsg ascii_lower (py "ConsciousnessBridge, hello") (py "alice") 7
              (world0 None None [4%N; 0%N]) = Some (tt, w') /\
    trace w' = t /\
    filter is_send t = [TimerStart delay (py "#consciousness") r] /\
    In r responses.
Proof.
  destruct (@on_pubmsg_mention_answered ascii_lower
              (world0 None None [4%N; 0%N])
              (py "ConsciousnessBridge, hello") (py "alice") 7)
    as (w' & t & delay & r & H & Ht & Hs & _ & Hc).
  - vm_compute. discriminate.
  - vm_compute. reflexivity.
  - vm_compute. discriminate.
  - exists w', t, delay, r. split; [exact H|]. split; [exact Ht|].
    split; [exact Hs | exact Hc].
Defined.

Lemma on_nicknameinuse_identity_witness :
  exists me' g' t,
    on_nicknameinuse (default_bot None None) (source_of [7%N])
    = Some (me', g', t) /\
    nickname me' = py "ConsciousnessBridge_17" /\
    should_respond ascii_lower (py "hi consciousnessbridge_17")
                   (py "ConsciousnessBridge") (mkWorld me' g' [])
    = Some (true, mkWorld me' g' []).
Proof.
  destruct (on_nicknameinuse_identity ascii_lower (default_bot None None)
              (source_of [7%N]) [] (py "hi consciousnessbridge_17"))
    as (me' & g' & t & H & _ & _ & Hm).
  exists me', g', t. split; [exact H|].
  vm_compute in H. injection H as <- _ _.
  split; [vm_compute; reflexivity|].
  apply Hm. vm_compute. reflexivity.
Defined.
